(** * The GraphQL worker of [src/index.ts]: model and verified properties

    The worker is one asynchronous function, [fetch(request, env)].  It is
    embedded here as a computation in a small monad of JavaScript effects:
    a world that records the observable effects (outbound calls, console
    output, draws of identifiers and of the clock, reads of the request body)
    and a completion that is either a value or a thrown exception.  The
    platform (upstream provider, random identifiers, clock) is an explicit
    oracle, so every statement below holds for every behaviour of the
    platform. *)

From Stdlib Require Import Floats.PrimFloat Strings.Ascii Strings.String NArith.
From stdpp Require Import gmap strings list pretty.

#[local] Set Warnings "-register-all".
#[local] Open Scope string_scope.

(** ** JavaScript values

    The values [JSON.parse] can produce, plus [undefined] (the value of a
    missing member).  A parsed object is a finite map from member names to
    values. *)

Inductive JsVal : Type :=
| JUndefined
| JNull
| JBool (b : bool)
| JNum (f : float)
| JStr (s : string)
| JArr (items : list JsVal)
| JObj (members : gmap string JsVal).

(** What a [throw] carries: an [Error] instance (of any subclass, [name]
    tells which) or some other value. *)
Inductive Thrown : Type :=
| JsError (name message : string)
| NonError (v : JsVal).

Definition TypeError (message : string) : Thrown := JsError "TypeError" message.

(** [!v] is [negb (truthy v)].  Strings are falsy when empty, numbers when
    zero (of either sign) or NaN. *)
Definition truthy (v : JsVal) : bool :=
  match v with
  | JUndefined | JNull => false
  | JBool b => b
  | JNum f => negb (PrimFloat.eqb f 0%float || PrimFloat.is_nan f)
  | JStr s => negb (String.eqb s "")
  | JArr _ | JObj _ => true
  end.

(** ** Strings

    A string is held as the bytes of its UTF-8 encoding. *)

Definition byte_in (lo hi : N) (c : ascii) : bool :=
  (lo <=? N_of_ascii c)%N && (N_of_ascii c <=? hi)%N.

Definition byte_is (n : N) (c : ascii) : bool := (N_of_ascii c =? n)%N.

(** [String.prototype.toLowerCase].  The letters A to Z are mapped to a to z.
    Characters outside ASCII are left as they are: the worker only searches
    the lowered text for the four ASCII markers below, and no character
    outside ASCII lowers to a text that completes one of them. *)
Definition lower_ascii (c : ascii) : ascii :=
  if byte_in 65 90 c then ascii_of_N (N_of_ascii c + 32) else c.

Fixpoint toLowerCase (s : string) : string :=
  match s with
  | EmptyString => EmptyString
  | String c rest => String (lower_ascii c) (toLowerCase rest)
  end.

(** [s.includes(needle)]: [needle] occurs in [s] as a contiguous run. *)
Fixpoint includes (needle s : string) : bool :=
  String.prefix needle s ||
  match s with
  | EmptyString => false
  | String _ rest => includes needle rest
  end.

(** The white space [String.prototype.trim] strips: the WhiteSpace and
    LineTerminator code points of ECMAScript, by the length of their UTF-8
    encoding.
    - one byte: U+0009 to U+000D and U+0020;
    - two bytes: U+00A0;
    - three bytes: U+1680, U+2000 to U+200A, U+2028, U+2029, U+202F, U+205F,
      U+3000 and U+FEFF. *)
Definition ws1 (c1 : ascii) : bool := byte_in 9 13 c1 || byte_is 32 c1.

Definition ws2 (c1 c2 : ascii) : bool := byte_is 194 c1 && byte_is 160 c2.

Definition ws3 (c1 c2 c3 : ascii) : bool :=
  (byte_is 225 c1 && byte_is 154 c2 && byte_is 128 c3)
  || (byte_is 226 c1 && byte_is 128 c2
      && (byte_in 128 138 c3 || byte_in 168 169 c3 || byte_is 175 c3))
  || (byte_is 226 c1 && byte_is 129 c2 && byte_is 159 c3)
  || (byte_is 227 c1 && byte_is 128 c2 && byte_is 128 c3)
  || (byte_is 239 c1 && byte_is 187 c2 && byte_is 191 c3).

Fixpoint trimStart (s : string) : string :=
  match s with
  | EmptyString => EmptyString
  | String c1 s1 =>
      if ws1 c1 then trimStart s1 else
      match s1 with
      | EmptyString => s
      | String c2 s2 =>
          if ws2 c1 c2 then trimStart s2 else
          match s2 with
          | EmptyString => s
          | String c3 s3 => if ws3 c1 c2 c3 then trimStart s3 else s
          end
      end
  end.

Fixpoint trimEnd (s : string) : string :=
  match s with
  | EmptyString => EmptyString
  | String c rest =>
      if String.eqb (trimStart s) "" then "" else String c (trimEnd rest)
  end.

Definition trim (s : string) : string := trimEnd (trimStart s).

(** The encodings of the white space code points, for stating what a
    whitespace-only string is without reference to [trim]. *)
Definition utf8 (bytes : list N) : string :=
  string_of_list_ascii (map ascii_of_N bytes).

Definition WhiteSpace : list string :=
  map utf8
    [ [9]; [10]; [11]; [12]; [13]; [32]; [194; 160]; [225; 154; 128];
      [226; 128; 128]; [226; 128; 129]; [226; 128; 130]; [226; 128; 131];
      [226; 128; 132]; [226; 128; 133]; [226; 128; 134]; [226; 128; 135];
      [226; 128; 136]; [226; 128; 137]; [226; 128; 138]; [226; 128; 168];
      [226; 128; 169]; [226; 128; 175]; [226; 129; 159]; [227; 128; 128];
      [239; 187; 191] ]%N.

Inductive whitespace_only : string → Prop :=
| ws_empty : whitespace_only ""
| ws_more (w rest : string) :
    w ∈ WhiteSpace → whitespace_only rest → whitespace_only (w ++ rest).

(** The first character of a string, for [s[0]].  (JavaScript indexes UTF-16
    units; the worker only ever reads a member of the result, which is
    [undefined] for every one-character string.) *)
Definition first_char (s : string) : JsVal :=
  match s with
  | EmptyString => JUndefined
  | String c1 s1 =>
      if byte_in 0 193 c1 then JStr (String c1 "") else
      match s1 with
      | EmptyString => JStr s
      | String c2 s2 =>
          if byte_in 194 223 c1 then JStr (String c1 (String c2 "")) else
          match s2 with
          | EmptyString => JStr s
          | String c3 s3 =>
              if byte_in 224 239 c1
              then JStr (String c1 (String c2 (String c3 "")))
              else match s3 with
                   | EmptyString => JStr s
                   | String c4 _ =>
                       JStr (String c1 (String c2 (String c3 (String c4 ""))))
                   end
          end
      end
  end.

(** ** The types of [src/index.ts] *)

(** [interface Env]. *)
Record Env := { OPENAI_API_KEY : string }.

(** The text [JSON.stringify] produces for a value, kept symbolic. *)
Inductive JsonText (A : Type) : Type := JSON_stringify (a : A).
Arguments JSON_stringify {A} a.

(** The object of lines 126-130. *)
Record ChatMessage := { role : string; content : JsVal }.
Record OpenAIRequest :=
  { model : string; messages : list ChatMessage; max_tokens : N }.

(** The arguments of the outbound [fetch] of lines 133-140. *)
Record FetchCall :=
  { url : string;
    call_method : string;
    call_headers : list (string * string);
    call_body : JsonText OpenAIRequest }.

(** The upstream [Response] as the worker reads it: its status, what
    [await text()] yields and what [await json()] yields.  Either read can
    reject: [text()] when the body cannot be read, [json()] also when the
    body is not JSON. *)
Inductive Completion (A : Type) : Type :=
| Normal (a : A)
| Throw (t : Thrown).
Arguments Normal {A} a.
Arguments Throw {A} t.

Record UpstreamResponse :=
  { up_status : N; up_text : Completion string; up_json : Completion JsVal }.

(** [response.ok]: the status is in the range 200 to 299. *)
Definition ok (r : UpstreamResponse) : bool :=
  (200 <=? up_status r)%N && (up_status r <=? 299)%N.

(** The selection set of [sendMessage]: the object of lines 115-120,
    149-154, 164-169 and 180-185.  [error] is a string or [null]. *)
Record ResultEnvelope :=
  { result : JsVal;
    requestId : string;
    timestamp : string;
    error : option string }.

Inductive Data : Type :=
| data_status (status : string)
| data_sendMessage (sendMessage : ResultEnvelope).

Record GraphQLError := { message : string }.

(** [interface GraphQLResponse]; [None] is a member left out. *)
Record GraphQLResponse :=
  { data : option Data; errors : option (list GraphQLError) }.

(** [new Response(body, { status, headers })]; a [None] body is [null]. *)
Record Response :=
  { body : option (JsonText GraphQLResponse);
    status : N;
    headers : list (string * string) }.

(** The inbound [Request]: its method and what [request.json()] yields. *)
Record Request := { method : string; json : Completion JsVal }.

(** ** The platform and the world *)

(** The platform's answers: the [n]-th identifier [crypto.randomUUID()]
    hands out, the [n]-th reading of the clock as [toISOString()] prints it,
    and how the upstream provider answers an outbound call: with a response,
    or by rejecting the promise. *)
Record Platform :=
  { uuid : nat → string;
    isoTime : nat → string;
    upstream : FetchCall → Completion UpstreamResponse }.

(** An argument of [console.error]. *)
Inductive LogArg : Type :=
| LogText (s : string)
| LogThrown (t : Thrown).

(** The effects of an invocation so far. *)
Record World :=
  { outbound : list FetchCall;
    console : list (list LogArg);
    uuid_draws : nat;
    clock_reads : nat;
    body_reads : nat }.

Definition initial : World :=
  {| outbound := []; console := []; uuid_draws := 0; clock_reads := 0;
     body_reads := 0 |}.

(** ** The monad of effects *)

Definition Js (A : Type) : Type := World → Completion A * World.

#[global] Instance Js_ret : MRet Js := λ A a w, (Normal a, w).

#[global] Instance Js_bind : MBind Js := λ A B f m w,
  match m w with
  | (Normal a, w') => f a w'
  | (Throw t, w') => (Throw t, w')
  end.

Definition throw {A} (t : Thrown) : Js A := λ w, (Throw t, w).

(** [try { block } catch (error) { handler }]. *)
Definition try_catch {A} (block : Js A) (handler : Thrown → Js A) : Js A :=
  λ w, match block w with
       | (Normal a, w') => (Normal a, w')
       | (Throw t, w') => handler t w'
       end.

Definition complete {A} (c : Completion A) : Js A := λ w, (c, w).

(** The effects, as updates of the world. *)
Definition read_body (w : World) : World :=
  {| outbound := outbound w; console := console w;
     uuid_draws := uuid_draws w; clock_reads := clock_reads w;
     body_reads := S (body_reads w) |}.

Definition draw_uuid (w : World) : World :=
  {| outbound := outbound w; console := console w;
     uuid_draws := S (uuid_draws w); clock_reads := clock_reads w;
     body_reads := body_reads w |}.

Definition read_clock (w : World) : World :=
  {| outbound := outbound w; console := console w;
     uuid_draws := uuid_draws w; clock_reads := S (clock_reads w);
     body_reads := body_reads w |}.

Definition call_out (call : FetchCall) (w : World) : World :=
  {| outbound := outbound w ++ [call]; console := console w;
     uuid_draws := uuid_draws w; clock_reads := clock_reads w;
     body_reads := body_reads w |}.

Definition log_error (args : list LogArg) (w : World) : World :=
  {| outbound := outbound w; console := console w ++ [args];
     uuid_draws := uuid_draws w; clock_reads := clock_reads w;
     body_reads := body_reads w |}.

Section Effects.
Context (P : Platform).

(** [await request.json()]. *)
Definition request_json (request : Request) : Js JsVal :=
  λ w, (json request, read_body w).

(** [crypto.randomUUID()]. *)
Definition randomUUID : Js string :=
  λ w, (Normal (uuid P (uuid_draws w)), draw_uuid w).

(** [new Date().toISOString()]. *)
Definition Date_toISOString : Js string :=
  λ w, (Normal (isoTime P (clock_reads w)), read_clock w).

(** [await fetch(url, init)], the outbound call. *)
Definition fetch_upstream (call : FetchCall) : Js UpstreamResponse :=
  λ w, (upstream P call, call_out call w).

(** [console.error(...args)]. *)
Definition console_error (args : list LogArg) : Js () :=
  λ w, (Normal (), log_error args w).
End Effects.

(** ** Member access and method calls on values *)

#[global] Instance Completion_ret : MRet Completion := λ A a, Normal a.

#[global] Instance Completion_bind : MBind Completion := λ A B f c,
  match c with
  | Normal a => f a
  | Throw t => Throw t
  end.

Definition nullish_name (v : JsVal) : string :=
  match v with
  | JNull => "null"
  | _ => "undefined"
  end.

(** The [TypeError] of reading member [k] of [undefined] or [null]. *)
Definition cannot_read (v : JsVal) (k : string) : Thrown :=
  TypeError
    ("Cannot read properties of " ++ nullish_name v ++ " (reading '" ++ k ++ "')").

Definition not_a_function (callee : string) : Thrown :=
  TypeError (callee ++ " is not a function").

(** [v.k] for the member names the worker reads ([query], [variables],
    [input], [choices], [message], [content]): none of them is a built-in
    member of a string, a number, a boolean or an array. *)
Definition get_member (k : string) (v : JsVal) : Completion JsVal :=
  match v with
  | JUndefined | JNull => Throw (cannot_read v k)
  | JObj members => Normal (default JUndefined (members !! k))
  | JBool _ | JNum _ | JStr _ | JArr _ => Normal JUndefined
  end.

(** [v[0]]. *)
Definition get_first (v : JsVal) : Completion JsVal :=
  match v with
  | JUndefined | JNull => Throw (cannot_read v "0")
  | JArr items => Normal (default JUndefined (head items))
  | JObj members => Normal (default JUndefined (members !! "0"))
  | JStr s => Normal (first_char s)
  | JBool _ | JNum _ => Normal JUndefined
  end.

(** [v.toLowerCase()] and [v.trim()] for a truthy [v]: only strings have
    these methods. *)
Definition call_toLowerCase (callee : string) (v : JsVal) : Completion string :=
  match v with
  | JStr s => Normal (toLowerCase s)
  | _ => Throw (not_a_function callee)
  end.

Definition call_trim (callee : string) (v : JsVal) : Completion string :=
  match v with
  | JStr s => Normal (trim s)
  | _ => Throw (not_a_function callee)
  end.

(** [openAIData.choices[0].message.content], line 165. *)
Definition first_choice_content (openAIData : JsVal) : Completion JsVal :=
  choices ← get_member "choices" openAIData;
  choice ← get_first choices;
  msg ← get_member "message" choice;
  get_member "content" msg.

(** ** The worker *)

Definition corsHeaders : list (string * string) :=
  [ ("Access-Control-Allow-Origin", "*");
    ("Access-Control-Allow-Methods", "GET, POST, OPTIONS");
    ("Access-Control-Allow-Headers", "Content-Type, Authorization");
    ("Access-Control-Max-Age", "86400") ].

(** [new Response(JSON.stringify(r), { status, headers: { 'Content-Type':
    'application/json', ...corsHeaders } })]. *)
Definition json_response (r : GraphQLResponse) (status : N) : Response :=
  {| body := Some (JSON_stringify r);
     status := status;
     headers := ("Content-Type", "application/json") :: corsHeaders |}.

Definition only_errors (text : string) : GraphQLResponse :=
  {| data := None; errors := Some [ {| message := text |} ] |}.

Definition only_data (d : Data) : GraphQLResponse :=
  {| data := Some d; errors := None |}.

Definition input_required : string := "请提供输入内容".
Definition fallback_message : string := "处理请求时出错".
Definition upstream_error_prefix : string := "OpenAI API 错误: ".

(** [error instanceof Error ? error.message : '处理请求时出错'], line 176. *)
Definition errorMessage (error : Thrown) : string :=
  match error with
  | JsError _ message => message
  | NonError _ => fallback_message
  end.

Section Worker.
Context (P : Platform).

(** The object literal [{ result, requestId: crypto.randomUUID(),
    timestamp: new Date().toISOString(), error }] under [sendMessage]. *)
Definition sendMessage_data (result : JsVal) (error : option string)
  : Js GraphQLResponse :=
  requestId ← randomUUID P;
  timestamp ← Date_toISOString P;
  mret (only_data (data_sendMessage
    {| result := result; requestId := requestId; timestamp := timestamp;
       error := error |})).

(** Lines 126-140: the request to the provider. *)
Definition openAIRequest (input : JsVal) : OpenAIRequest :=
  {| model := "gpt-3.5-turbo";
     messages := [ {| role := "user"; content := input |} ];
     max_tokens := 500 |}.

Definition openAICall (input : JsVal) (env : Env) : FetchCall :=
  {| url := "https://api.openai.com/v1/chat/completions";
     call_method := "POST";
     call_headers :=
       [ ("Content-Type", "application/json");
         ("Authorization", "Bearer " ++ OPENAI_API_KEY env) ];
     call_body := JSON_stringify (openAIRequest input) |}.

(** Lines 109-189: the [sendMessage] mutation. *)
Definition sendMessage (variables : JsVal) (env : Env) : Js GraphQLResponse :=
  input ← complete (get_member "input" variables);
  invalid ← (if negb (truthy input) then mret true
             else trimmed ← complete (call_trim "input.trim" input);
                  mret (String.eqb trimmed ""));
  if invalid : bool then
    sendMessage_data (JStr "") (Some input_required)
  else
    try_catch
      (openAIResponse ← fetch_upstream P (openAICall input env);
       if negb (ok openAIResponse) then
         errorText ← complete (up_text openAIResponse);
         console_error
           [ LogText (upstream_error_prefix
                      ++ pretty (up_status openAIResponse) ++ " "
                      ++ errorText ++ " " ++ "[object Object]") ];;
         sendMessage_data (JStr "")
           (Some (upstream_error_prefix ++ pretty (up_status openAIResponse)))
       else
         openAIData ← complete (up_json openAIResponse);
         content ← complete (first_choice_content openAIData);
         sendMessage_data content None)
      (λ error,
         console_error [ LogText "处理请求出错:"; LogThrown error ];;
         sendMessage_data (JStr "") (Some (errorMessage error))).

(** Lines 79-209: the body of the outer [try]. *)
Definition handle_post (request : Request) (env : Env) : Js Response :=
  body ← request_json request;
  body_query ← complete (get_member "query" body);
  if negb (truthy body_query) then
    mret (json_response (only_errors "无效的 GraphQL 请求") 400)
  else
    query ← complete (call_toLowerCase "body.query.toLowerCase" body_query);
    body_variables ← complete (get_member "variables" body);
    let variables :=
      if truthy body_variables then body_variables else JObj ∅ in
    result ←
      (if includes "query" query && includes "status" query then
         mret (only_data (data_status "GraphQL API 正常运行中"))
       else if includes "mutation" query && includes "sendmessage" query then
         sendMessage variables env
       else
         mret (only_errors "不支持的 GraphQL 查询"));
    mret (json_response result 200).

(** [export default { async fetch(request, env) }]. *)
Definition fetch (request : Request) (env : Env) : Js Response :=
  if String.eqb (method request) "OPTIONS" then
    mret {| body := None; status := 204; headers := corsHeaders |}
  else if negb (String.eqb (method request) "POST") then
    mret (json_response (only_errors "只支持 POST 请求") 405)
  else
    try_catch (handle_post request env)
      (λ error,
         console_error [ LogText "处理请求出错:"; LogThrown error ];;
         mret (json_response (only_errors fallback_message) 500)).
End Worker.

(** The router's decision, read off the two branch conditions of
    [handle_post]. *)
Inductive Operation : Type := StatusQuery | SendMessage | Unsupported.

Definition classify (descriptor : string) : Operation :=
  let query := toLowerCase descriptor in
  if includes "query" query && includes "status" query then StatusQuery
  else if includes "mutation" query && includes "sendmessage" query
       then SendMessage
       else Unsupported.

(** The envelope a completion carries, if it is a response with one. *)
Definition envelope_of (c : Completion Response) : option ResultEnvelope :=
  match c with
  | Normal {| body := Some (JSON_stringify
                {| data := Some (data_sendMessage e) |}) |} => Some e
  | _ => None
  end.

(** The request [POST] with a body that parses to the object [members]. *)
Definition post (members : gmap string JsVal) : Request :=
  {| method := "POST"; json := Normal (JObj members) |}.

(** [body.variables || {}] and [variables.input] for such a body. *)
Definition variables_of (members : gmap string JsVal) : JsVal :=
  let body_variables := default JUndefined (members !! "variables") in
  if truthy body_variables then body_variables else JObj ∅.

Definition input_of (members : gmap string JsVal) : JsVal :=
  match variables_of members with
  | JObj vars => default JUndefined (vars !! "input")
  | _ => JUndefined
  end.

(** The status of the response an invocation returns. *)
Definition status_of (r : Completion Response * World) : option N :=
  match r.1 with
  | Normal response => Some (status response)
  | Throw _ => None
  end.

(** The two halves of the envelope invariant. *)
Definition nonempty_text (v : JsVal) : bool :=
  match v with
  | JStr s => negb (String.eqb s "")
  | _ => false
  end.

Definition exactly_one (e : ResultEnvelope) : bool :=
  xorb (nonempty_text (result e)) (bool_decide (is_Some (error e))).

(** The envelope drawn in world [w]. *)
Definition envelope_at (P : Platform) (w : World)
    (result : JsVal) (error : option string) : ResultEnvelope :=
  {| result := result;
     requestId := uuid P (uuid_draws w);
     timestamp := isoTime P (clock_reads w);
     error := error |}.

Definition drawn (w : World) : World := read_clock (draw_uuid w).

(** ** The responses and outcomes the properties speak of *)

Definition invalid_request : Response :=
  json_response (only_errors "无效的 GraphQL 请求") 400.

Definition internal_error : Response :=
  json_response (only_errors fallback_message) 500.

Definition caught (error : Thrown) (w : World) : World :=
  log_error [ LogText "处理请求出错:"; LogThrown error ] w.

(** The three outcomes of the outbound call, as the branches of lines
    143-188 tell them apart.  Whatever is thrown between the call and the
    envelope (by [fetch], by [text()], by [json()], by the read of the
    first choice) is a [TransportFailure]. *)
Inductive UpstreamOutcome : Type :=
| Success (content : JsVal)
| Rejected (statusCode : N) (rawBody : string)
| TransportFailure (error : Thrown).

Definition outcome_of (answer : Completion UpstreamResponse) : UpstreamOutcome :=
  match answer with
  | Throw error => TransportFailure error
  | Normal r =>
      if ok r then
        match up_json r ≫= first_choice_content with
        | Normal content => Success content
        | Throw error => TransportFailure error
        end
      else
        match up_text r with
        | Normal errorText => Rejected (up_status r) errorText
        | Throw error => TransportFailure error
        end
  end.

Definition enveloped (P : Platform) (w : World) (result : JsVal)
    (error : option string) : GraphQLResponse :=
  only_data (data_sendMessage (envelope_at P w result error)).

Definition rejection_log (statusCode : N) (rawBody : string) : list LogArg :=
  [ LogText (upstream_error_prefix ++ pretty statusCode ++ " " ++ rawBody
             ++ " " ++ "[object Object]") ].

(** What the input validation of line 112 turns away, in the words of the
    interface: an input that is absent, empty or made of white space. *)
Definition blank (input : JsVal) : Prop :=
  input = JUndefined ∨ input = JStr "" ∨
  ∃ s, input = JStr s ∧ whitespace_only s.

(** ** Sample platforms and requests *)

Definition sample_env : Env := {| OPENAI_API_KEY := "sk-test" |}.

(** A platform whose provider gives the same answer to every call. *)
Definition answering (answer : Completion UpstreamResponse) : Platform :=
  {| uuid := λ n, "uuid-" ++ pretty n;
     isoTime := λ n, "2024-01-01T00:00:0" ++ pretty n ++ ".000Z";
     upstream := λ _, answer |}.

Definition chat_reply (choices : list JsVal) : JsVal :=
  JObj {[ "choices" := JArr choices ]}.

Definition choice (text : string) : JsVal :=
  JObj {[ "message" := JObj {[ "content" := JStr text ]} ]}.

Definition replying (status : N) (text : string) (choices : list JsVal)
  : Platform :=
  answering (Normal {| up_status := status; up_text := Normal text;
                       up_json := Normal (chat_reply choices) |}).

Definition query_only (q : string) : gmap string JsVal :=
  {[ "query" := JStr q ]}.

Definition mutation (input : JsVal) : gmap string JsVal :=
  <[ "variables" := JObj {[ "input" := input ]} ]>
    (query_only "mutation { sendMessage(input: $input) }").

(** ** Every way an invocation can go

    The paths through [fetch], one constructor each: the response returned
    and the world left behind, with the conditions under which the path is
    taken.  [fetch_run] below shows that every invocation follows one of
    them. *)

Inductive Run (P : Platform) (env : Env) (request : Request) (w : World)
  : Response → World → Prop :=
| run_options :
    method request = "OPTIONS" →
    Run P env request w
      {| body := None; status := 204; headers := corsHeaders |} w
| run_not_post :
    method request ≠ "OPTIONS" → method request ≠ "POST" →
    Run P env request w (json_response (only_errors "只支持 POST 请求") 405) w
| run_malformed (error : Thrown) :
    method request = "POST" → json request = Throw error →
    Run P env request w internal_error (caught error (read_body w))
| run_nullish (parsed : JsVal) (error : Thrown) :
    method request = "POST" → json request = Normal parsed →
    get_member "query" parsed = Throw error →
    Run P env request w internal_error (caught error (read_body w))
| run_no_query (parsed v : JsVal) :
    method request = "POST" → json request = Normal parsed →
    get_member "query" parsed = Normal v → truthy v = false →
    Run P env request w invalid_request (read_body w)
| run_query_not_text (members : gmap string JsVal) (v : JsVal) :
    request = post members → members !! "query" = Some v →
    truthy v = true → (∀ q, v ≠ JStr q) →
    Run P env request w internal_error
      (caught (not_a_function "body.query.toLowerCase") (read_body w))
| run_status (members : gmap string JsVal) (q : string) :
    request = post members → members !! "query" = Some (JStr q) →
    classify q = StatusQuery →
    Run P env request w
      (json_response (only_data (data_status "GraphQL API 正常运行中")) 200)
      (read_body w)
| run_unsupported (members : gmap string JsVal) (q : string) :
    request = post members → members !! "query" = Some (JStr q) →
    q ≠ "" → classify q = Unsupported →
    Run P env request w
      (json_response (only_errors "不支持的 GraphQL 查询") 200) (read_body w)
| run_blank (members : gmap string JsVal) (q : string) :
    request = post members → members !! "query" = Some (JStr q) →
    classify q = SendMessage →
    truthy (input_of members) = false
    ∨ (∃ s, input_of members = JStr s ∧ trim s = "") →
    Run P env request w
      (json_response (enveloped P w (JStr "") (Some input_required)) 200)
      (drawn (read_body w))
| run_input_not_text (members : gmap string JsVal) (q : string) :
    request = post members → members !! "query" = Some (JStr q) →
    classify q = SendMessage →
    truthy (input_of members) = true → (∀ s, input_of members ≠ JStr s) →
    Run P env request w internal_error
      (caught (not_a_function "input.trim") (read_body w))
| run_success (members : gmap string JsVal) (q s : string) (content : JsVal) :
    request = post members → members !! "query" = Some (JStr q) →
    classify q = SendMessage → input_of members = JStr s → trim s ≠ "" →
    outcome_of (upstream P (openAICall (JStr s) env)) = Success content →
    Run P env request w
      (json_response (enveloped P w content None) 200)
      (drawn (call_out (openAICall (JStr s) env) (read_body w)))
| run_rejected (members : gmap string JsVal) (q s : string)
    (statusCode : N) (rawBody : string) :
    request = post members → members !! "query" = Some (JStr q) →
    classify q = SendMessage → input_of members = JStr s → trim s ≠ "" →
    outcome_of (upstream P (openAICall (JStr s) env))
    = Rejected statusCode rawBody →
    Run P env request w
      (json_response
         (enveloped P w (JStr "")
            (Some (upstream_error_prefix ++ pretty statusCode))) 200)
      (drawn (log_error (rejection_log statusCode rawBody)
                (call_out (openAICall (JStr s) env) (read_body w))))
| run_failed (members : gmap string JsVal) (q s : string) (error : Thrown) :
    request = post members → members !! "query" = Some (JStr q) →
    classify q = SendMessage → input_of members = JStr s → trim s ≠ "" →
    outcome_of (upstream P (openAICall (JStr s) env))
    = TransportFailure error →
    Run P env request w
      (json_response
         (enveloped P w (JStr "") (Some (errorMessage error))) 200)
      (drawn (caught error
                (call_out (openAICall (JStr s) env) (read_body w)))).

(** What an invocation may add to the world: at most one outbound call, at
    most one console entry, at most one identifier and one reading of the
    clock (both or neither), at most one read of the request body. *)
Definition footprint (w w' : World) : Prop :=
  (∃ calls : list FetchCall,
     outbound w' = (outbound w ++ calls)%list ∧ (length calls ≤ 1)%nat)
  ∧ (∃ entries : list (list LogArg),
       console w' = (console w ++ entries)%list ∧ (length entries ≤ 1)%nat)
  ∧ (∃ k : nat, (k ≤ 1 ∧ uuid_draws w' = uuid_draws w + k
                 ∧ clock_reads w' = clock_reads w + k)%nat)
  ∧ (∃ b : nat, (b ≤ 1 ∧ body_reads w' = body_reads w + b)%nat).


(** ** The resolvers of [src/index_apollo.ts] *)

Module Apollo.
Section Resolvers.
Context (P : Platform).

(** [resolvers.Query.status], line 56. *)
Definition status : string := "GraphQL API 正常运行中".

(** The object literal [{ result, requestId: crypto.randomUUID(),
    timestamp: new Date().toISOString(), error }] a resolver returns. *)
Definition envelope (result : JsVal) (error : option string)
  : Js ResultEnvelope :=
  requestId ← randomUUID P;
  timestamp ← Date_toISOString P;
  mret {| result := result; requestId := requestId; timestamp := timestamp;
          error := error |}.

(** Lines 72-86: the request to the provider. *)
Definition openAIRequest (input : JsVal) : OpenAIRequest :=
  {| model := "gpt-4";
     messages := [ {| role := "user"; content := input |} ];
     max_tokens := 500 |}.

Definition openAICall (input : JsVal) (env : Env) : FetchCall :=
  {| url := "https://api.openai.com/v1/chat/completions";
     call_method := "POST";
     call_headers :=
       [ ("Content-Type", "application/json");
         ("Authorization", "Bearer " ++ OPENAI_API_KEY env) ];
     call_body := JSON_stringify (openAIRequest input) |}.

(** [resolvers.Mutation.sendMessage], lines 59-123.  The validation is
    inside the [try]. *)
Definition sendMessage (input : JsVal) (env : Env) : Js ResultEnvelope :=
  try_catch
    (invalid ← (if negb (truthy input) then mret true
                else trimmed ← complete (call_trim "input.trim" input);
                     mret (String.eqb trimmed ""));
     if invalid : bool then
       envelope (JStr "") (Some input_required)
     else
       openAIResponse ← fetch_upstream P (openAICall input env);
       if negb (ok openAIResponse) then
         errorText ← complete (up_text openAIResponse);
         console_error
           [ LogText (upstream_error_prefix
                      ++ pretty (up_status openAIResponse) ++ " "
                      ++ errorText) ];;
         envelope (JStr "")
           (Some (upstream_error_prefix ++ pretty (up_status openAIResponse)))
       else
         openAIData ← complete (up_json openAIResponse);
         content ← complete (first_choice_content openAIData);
         envelope content None)
    (λ error,
       console_error [ LogText "处理请求出错:"; LogThrown error ];;
       envelope (JStr "") (Some (errorMessage error))).
End Resolvers.
End Apollo.

(** * Properties *)

(** ** Running the monad *)

Create HintDb js discriminated.
#[local] Hint Unfold mbind mret Js_bind Js_ret Completion_bind Completion_ret
  try_catch complete throw request_json randomUUID Date_toISOString
  fetch_upstream console_error : js.

Ltac js_run := repeat (autounfold with js; cbn).

Section StringFacts.




Lemma trimStart_whitespace (w rest : string) :
  w ∈ WhiteSpace → trimStart (w ++ rest) = trimStart rest.
Proof.
  unfold WhiteSpace. cbn [map].
  intros H. repeat (apply elem_of_cons in H as [-> | H]; [reflexivity|]).
  by apply elem_of_nil in H.
Qed.

Lemma whitespace_only_trim (s : string) : whitespace_only s → trim s = "".
Proof.
  intros H. unfold trim.
  assert (trimStart s = "") as ->; [|reflexivity].
  induction H as [|w rest Hw _ IH]; [reflexivity|].
  by rewrite trimStart_whitespace.
Qed.

Lemma truthy_text (s : string) : s ≠ "" → truthy (JStr s) = true.
Proof. intros H. cbn. by destruct (String.eqb_spec s ""). Qed.

Lemma trim_nonempty (s : string) : trim s ≠ "" → s ≠ "".
Proof. intros H ->. by apply H. Qed.

End StringFacts.

(** ** The request gate *)

Section Gate.
Context (P : Platform) (env : Env).

Lemma fetch_POST (request : Request) (w : World) :
  method request = "POST" →
  fetch P request env w =
    match handle_post P request env w with
    | (Normal response, w') => (Normal response, w')
    | (Throw error, w') => (Normal internal_error, caught error w')
    end.
Proof.
  intros E. unfold fetch. rewrite E. cbn. unfold try_catch.
  by destruct (handle_post P request env w) as [[response|error] w'].
Qed.

Lemma fetch_OPTIONS (request : Request) (w : World) :
  method request = "OPTIONS" →
  fetch P request env w
  = (Normal {| body := None; status := 204; headers := corsHeaders |}, w).
Proof. unfold fetch. by intros ->. Qed.

Lemma fetch_other (request : Request) (w : World) :
  method request ≠ "OPTIONS" → method request ≠ "POST" →
  fetch P request env w
  = (Normal (json_response (only_errors "只支持 POST 请求") 405), w).
Proof.
  intros Hopt Hpost. unfold fetch.
  destruct (String.eqb_spec (method request) "OPTIONS") as [|_]; [done|].
  by destruct (String.eqb_spec (method request) "POST") as [|_].
Qed.

Lemma get_input (members : gmap string JsVal) :
  get_member "input" (variables_of members) = Normal (input_of members).
Proof.
  unfold input_of, variables_of. cbn zeta.
  destruct (default JUndefined (members !! "variables")) as [| |b|f|s|l|m];
    try reflexivity;
    by destruct (truthy _).
Qed.

(** Once the body is an object with a non-empty text as [query], the
    response is decided by [classify]. *)
Lemma handle_post_classified (members : gmap string JsVal) (q : string)
    (w : World) :
  members !! "query" = Some (JStr q) → q ≠ "" →
  handle_post P (post members) env w =
    match classify q with
    | StatusQuery =>
        (Normal (json_response
                   (only_data (data_status "GraphQL API 正常运行中")) 200),
         read_body w)
    | SendMessage =>
        match sendMessage P (variables_of members) env (read_body w) with
        | (Normal result, w') => (Normal (json_response result 200), w')
        | (Throw error, w') => (Throw error, w')
        end
    | Unsupported =>
        (Normal (json_response (only_errors "不支持的 GraphQL 查询") 200),
         read_body w)
    end.
Proof.
  intros Hq Hne. unfold handle_post, classify. js_run. rewrite Hq. cbn.
  destruct (String.eqb_spec q "") as [|_]; [done|]. cbn.
  destruct (includes "query" (toLowerCase q)
            && includes "status" (toLowerCase q)); [done|].
  destruct (includes "mutation" (toLowerCase q)
            && includes "sendmessage" (toLowerCase q)); [|done].
  unfold variables_of.
  by destruct (sendMessage P _ env (read_body w)) as [[result|error] w'].
Qed.
End Gate.

(** ** The [sendMessage] mutation, outcome by outcome *)


Section Mutation.
Context (P : Platform) (env : Env).

Lemma sendMessage_data_run (result : JsVal) (error : option string)
    (w : World) :
  sendMessage_data P result error w
  = (Normal (enveloped P w result error), drawn w).
Proof. reflexivity. Qed.

(** Validation fails: nothing but the envelope is made. *)
Lemma sendMessage_invalid (variables input : JsVal) (w : World) :
  get_member "input" variables = Normal input →
  truthy input = false ∨ (∃ s, input = JStr s ∧ trim s = "") →
  sendMessage P variables env w
  = (Normal (enveloped P w (JStr "") (Some input_required)), drawn w).
Proof.
  intros Hin Hbad. unfold sendMessage. js_run. rewrite Hin. cbn.
  destruct (truthy input) eqn:Ht; cbn; [|reflexivity].
  destruct Hbad as [|(s & -> & Hs)]; [done|].
  cbn. by rewrite Hs.
Qed.

(** Validation passes: one outbound call, then one envelope per outcome. *)
Lemma sendMessage_valid (variables : JsVal) (s : string) (w : World) :
  get_member "input" variables = Normal (JStr s) → trim s ≠ "" →
  let call := openAICall (JStr s) env in
  let w1 := call_out call w in
  sendMessage P variables env w =
    match outcome_of (upstream P call) with
    | Success content => (Normal (enveloped P w content None), drawn w1)
    | Rejected statusCode rawBody =>
        (Normal (enveloped P w (JStr "")
                   (Some (upstream_error_prefix ++ pretty statusCode))),
         drawn (log_error (rejection_log statusCode rawBody) w1))
    | TransportFailure error =>
        (Normal (enveloped P w (JStr "") (Some (errorMessage error))),
         drawn (caught error w1))
    end.
Proof.
  intros Hin Hs call w1. unfold sendMessage. js_run. rewrite Hin.
  cbn -[truthy]. rewrite (truthy_text s (trim_nonempty s Hs)). cbn.
  destruct (String.eqb_spec (trim s) "") as [|_]; [done|].
  fold call. unfold outcome_of.
  destruct (upstream P call) as [r|error]; [|reflexivity].
  destruct (ok r); cbn.
  2: { by destruct (up_text r) as [errorText|error]. }
  destruct (up_json r) as [v|error]; [|reflexivity]. cbn.
  by destruct (first_choice_content v) as [content|error].
Qed.

(** A truthy input that is not a string has no [trim] to call. *)
Lemma sendMessage_throws (variables input : JsVal) (w : World) :
  get_member "input" variables = Normal input →
  truthy input = true → (∀ s, input ≠ JStr s) →
  sendMessage P variables env w = (Throw (not_a_function "input.trim"), w).
Proof.
  intros Hin Ht Hns. unfold sendMessage. js_run. rewrite Hin, Ht. cbn.
  destruct input; try reflexivity; try discriminate. by destruct (Hns s).
Qed.
End Mutation.

(** ** The claims about the request gate *)

Section GateClaims.
Context (P : Platform) (env : Env).

(** C7. A request whose method is [OPTIONS] is answered 204 with no body
    and the CORS headers only; a request whose method is neither [OPTIONS]
    nor [POST] is answered 405 with an [errors] array whose single entry
    says that only POST is supported.  In both cases the world is left as
    it was (the request body is not read, nothing is drawn, called or
    logged) and the answer does not depend on the body. *)
Theorem method_gate (request : Request) (w : World) :
  (method request = "OPTIONS" →
   fetch P request env w
   = (Normal {| body := None; status := 204; headers := corsHeaders |}, w))
  ∧ (method request ≠ "OPTIONS" → method request ≠ "POST" →
     fetch P request env w
     = (Normal
          {| body := Some (JSON_stringify
               {| data := None;
                  errors := Some [ {| message := "只支持 POST 请求" |} ] |});
             status := 405;
             headers := ("Content-Type", "application/json") :: corsHeaders |},
        w)).
Proof.
  split.
  - apply fetch_OPTIONS.
  - apply fetch_other.
Qed.

(** C9. A POST whose [query] member is present but is the empty string is
    answered 400 with the invalid-request error, as if the member were
    absent: the descriptor, which [classify] would call [Unsupported], never
    gets the 200 answer of an unsupported query. *)
Theorem empty_query_is_400 (members : gmap string JsVal) (w : World) :
  members !! "query" = Some (JStr "") →
  fetch P (post members) env w
  = (Normal (json_response (only_errors "无效的 GraphQL 请求") 400),
     read_body w)
  ∧ classify "" = Unsupported
  ∧ status_of (fetch P (post members) env w) ≠ Some 200%N.
Proof.
  intros Hq.
  assert (fetch P (post members) env w
          = (Normal (json_response (only_errors "无效的 GraphQL 请求") 400),
             read_body w)) as E.
  { rewrite fetch_POST by reflexivity.
    unfold handle_post. js_run. by rewrite Hq. }
  rewrite E. by repeat split.
Qed.

(** C8, as the code has it.  A POST whose body parses to a value other
    than [null] that has no [query] member is answered 400 with an [errors]
    array whose single entry is the invalid-request message.  A POST whose
    body is not JSON, a POST whose body parses to [null] (the read of
    [body.query] throws), and any fault thrown while the POST is handled,
    are answered 500 with an [errors] array whose single entry is the
    generic message.  For every request whatsoever [fetch] returns a
    response: no exception leaves it. *)
Theorem request_boundary (request : Request) (w : World) :
  (∀ parsed, method request = "POST" → json request = Normal parsed →
     parsed ≠ JNull → parsed ≠ JUndefined →
     (∀ members, parsed = JObj members → members !! "query" = None) →
     fetch P request env w
     = (Normal
          {| body := Some (JSON_stringify
               {| data := None;
                  errors := Some [ {| message := "无效的 GraphQL 请求" |} ] |});
             status := 400;
             headers := ("Content-Type", "application/json") :: corsHeaders |},
        read_body w))
  ∧ (∀ error w', method request = "POST" →
       json request = Throw error ∧ w' = read_body w
       ∨ json request = Normal JNull
         ∧ error
           = TypeError "Cannot read properties of null (reading 'query')"
         ∧ w' = read_body w
       ∨ handle_post P request env w = (Throw error, w') →
       fetch P request env w
       = (Normal
            {| body := Some (JSON_stringify
                 {| data := None;
                    errors := Some [ {| message := "处理请求时出错" |} ] |});
               status := 500;
               headers := ("Content-Type", "application/json") :: corsHeaders |},
          log_error [ LogText "处理请求出错:"; LogThrown error ] w'))
  ∧ (∃ response w', fetch P request env w = (Normal response, w')).
Proof.
  split; [|split].
  - intros parsed Hm Hj Hnull Hundef Hq. rewrite fetch_POST by done.
    unfold handle_post. js_run. rewrite Hj.
    destruct parsed as [| |b|f|s|items|members]; try done.
    cbn. by rewrite (Hq members eq_refl).
  - intros error w' Hm [[Hj ->]|[(Hj & -> & ->)|Hh]];
      rewrite fetch_POST by done.
    + unfold handle_post. js_run. by rewrite Hj.
    + unfold handle_post. js_run. by rewrite Hj.
    + by rewrite Hh.
  - destruct (String.eqb_spec (method request) "OPTIONS") as [Ho|Ho].
    { eexists _, _. by apply fetch_OPTIONS. }
    destruct (String.eqb_spec (method request) "POST") as [Hp|Hp].
    + rewrite fetch_POST by done.
      destruct (handle_post P request env w) as [[response|error] w'];
        by eexists _, _.
    + eexists _, _. by apply fetch_other.
Qed.
End GateClaims.

(** ** The claims about the operations *)

Section Operations.
Context (P : Platform) (env : Env).

Lemma fetch_classified (members : gmap string JsVal) (q : string) (w : World) :
  members !! "query" = Some (JStr q) → q ≠ "" →
  fetch P (post members) env w =
    match classify q with
    | StatusQuery =>
        (Normal (json_response
                   (only_data (data_status "GraphQL API 正常运行中")) 200),
         read_body w)
    | SendMessage =>
        match sendMessage P (variables_of members) env (read_body w) with
        | (Normal result, w') => (Normal (json_response result 200), w')
        | (Throw error, w') => (Normal internal_error, caught error w')
        end
    | Unsupported =>
        (Normal (json_response (only_errors "不支持的 GraphQL 查询") 200),
         read_body w)
    end.
Proof.
  intros Hq Hne. rewrite fetch_POST by reflexivity.
  rewrite (handle_post_classified P env members q w Hq Hne).
  destruct (classify q); try reflexivity.
  by destruct (sendMessage P _ env _) as [[result|error] w'].
Qed.

Lemma classified_nonempty (q : string) : classify q ≠ Unsupported → q ≠ "".
Proof. by intros H ->. Qed.

(** A validated input: one call, one envelope per outcome. *)
Lemma fetch_valid_input (members : gmap string JsVal) (q s : string)
    (w : World) :
  members !! "query" = Some (JStr q) → classify q = SendMessage →
  input_of members = JStr s → trim s ≠ "" →
  let call := openAICall (JStr s) env in
  let w1 := call_out call (read_body w) in
  fetch P (post members) env w =
    match outcome_of (upstream P call) with
    | Success content =>
        (Normal (json_response (enveloped P w content None) 200), drawn w1)
    | Rejected statusCode rawBody =>
        (Normal (json_response
                   (enveloped P w (JStr "")
                      (Some (upstream_error_prefix ++ pretty statusCode)))
                   200),
         drawn (log_error (rejection_log statusCode rawBody) w1))
    | TransportFailure error =>
        (Normal (json_response
                   (enveloped P w (JStr "") (Some (errorMessage error))) 200),
         drawn (caught error w1))
    end.
Proof.
  intros Hq Hc Hin Hs call w1.
  rewrite (fetch_classified members q w Hq) by (apply classified_nonempty; by rewrite Hc).
  rewrite Hc.
  assert (get_member "input" (variables_of members) = Normal (JStr s))
    as Hget by (by rewrite get_input, Hin).
  rewrite (sendMessage_valid P env _ s (read_body w) Hget Hs).
  cbv zeta. fold call. fold w1.
  by destruct (outcome_of (upstream P call)).
Qed.

(** An input the validation turns away: no call, one envelope. *)
Lemma fetch_invalid_input (members : gmap string JsVal) (q : string)
    (w : World) :
  members !! "query" = Some (JStr q) → classify q = SendMessage →
  truthy (input_of members) = false
  ∨ (∃ s, input_of members = JStr s ∧ trim s = "") →
  fetch P (post members) env w
  = (Normal (json_response
               (enveloped P w (JStr "") (Some input_required)) 200),
     drawn (read_body w)).
Proof.
  intros Hq Hc Hbad.
  rewrite (fetch_classified members q w Hq) by (apply classified_nonempty; by rewrite Hc).
  rewrite Hc.
  by rewrite (sendMessage_invalid P env (variables_of members)
                (input_of members) (read_body w) (get_input members) Hbad).
Qed.

(** A truthy input that is not a string: the [TypeError] of [input.trim]
    is thrown outside the inner [try] and caught by the outer one. *)
Lemma fetch_bad_input (members : gmap string JsVal) (q : string) (w : World) :
  members !! "query" = Some (JStr q) → classify q = SendMessage →
  truthy (input_of members) = true ∧ (∀ s, input_of members ≠ JStr s) →
  fetch P (post members) env w
  = (Normal internal_error,
     caught (not_a_function "input.trim") (read_body w)).
Proof.
  intros Hq Hc [Ht Hns].
  rewrite (fetch_classified members q w Hq)
    by (apply classified_nonempty; by rewrite Hc).
  rewrite Hc.
  by rewrite (sendMessage_throws P env (variables_of members)
                (input_of members) (read_body w) (get_input members) Ht Hns).
Qed.

(** C3. When the operation is [sendMessage] and [variables.input] is absent,
    empty or made of white space only, the response is a 200 whose body is
    [data.sendMessage] with the fixed input-required message as [error] and
    the empty string as [result], and the list of outbound calls is what it
    was: the provider is not called. *)
Theorem blank_input_is_turned_away (members : gmap string JsVal) (q : string)
    (w : World) :
  members !! "query" = Some (JStr q) → classify q = SendMessage →
  blank (input_of members) →
  ∃ w',
    fetch P (post members) env w
    = (Normal
         {| body := Some (JSON_stringify
              {| data := Some (data_sendMessage
                   {| result := JStr "";
                      requestId := uuid P (uuid_draws w);
                      timestamp := isoTime P (clock_reads w);
                      error := Some "请提供输入内容" |});
                 errors := None |});
            status := 200;
            headers := ("Content-Type", "application/json") :: corsHeaders |},
       w')
    ∧ outbound w' = outbound w.
Proof.
  intros Hq Hc Hblank. exists (drawn (read_body w)). split; [|reflexivity].
  apply (fetch_invalid_input members q w Hq Hc).
  destruct Hblank as [E|[E|(s & E & Hs)]]; rewrite E.
  - by left.
  - by left.
  - right. exists s. split; [done|]. by apply whitespace_only_trim.
Qed.

(** C6. When the operation is [sendMessage] and the input is a string that
    does not trim to the empty string, exactly one call is sent to the
    provider, whatever it answers: a POST to the completions endpoint whose
    body is the fixed model, one message of role [user] whose content is the
    input itself, untrimmed, and [max_tokens] 500. *)
Theorem upstream_request_is_fixed (members : gmap string JsVal) (q s : string)
    (w : World) :
  members !! "query" = Some (JStr q) → classify q = SendMessage →
  input_of members = JStr s → trim s ≠ "" →
  ∃ response w',
    fetch P (post members) env w = (Normal response, w')
    ∧ outbound w'
      = (outbound w ++
         [ {| url := "https://api.openai.com/v1/chat/completions";
              call_method := "POST";
              call_headers :=
                [ ("Content-Type", "application/json");
                  ("Authorization",
                   ("Bearer " ++ OPENAI_API_KEY env)%string) ];
              call_body := JSON_stringify
                {| model := "gpt-3.5-turbo";
                   messages := [ {| role := "user"; content := JStr s |} ];
                   max_tokens := 500 |} |} ])%list.
Proof.
  intros Hq Hc Hin Hs.
  rewrite (fetch_valid_input members q s w Hq Hc Hin Hs). cbv zeta.
  destruct (outcome_of _); by eexists _, _.
Qed.
End Operations.

Section Reads.

Lemma bind_Throw {A B} (c : Completion A) (f : A → Completion B) (t : Thrown) :
  c ≫= f = Throw t → c = Throw t ∨ ∃ a, c = Normal a ∧ f a = Throw t.
Proof.
  destruct c as [a|t']; unfold mbind, Completion_bind; intros H.
  - right. by exists a.
  - left. by injection H as ->.
Qed.

Lemma get_member_Throw (k : string) (v : JsVal) (t : Thrown) :
  get_member k v = Throw t → t = cannot_read v k.
Proof. destruct v; cbn; congruence. Qed.

Lemma get_first_Throw (v : JsVal) (t : Thrown) :
  get_first v = Throw t → t = cannot_read v "0".
Proof. destruct v; cbn; congruence. Qed.

(** Whatever reading [choices[0].message.content] throws is a [TypeError]. *)
Lemma first_choice_content_Throw (v : JsVal) (t : Thrown) :
  first_choice_content v = Throw t → ∃ text, t = TypeError text.
Proof.
  unfold first_choice_content. intros H.
  apply bind_Throw in H as [H|(choices & _ & H)];
    [apply get_member_Throw in H; by eexists|].
  apply bind_Throw in H as [H|(first & _ & H)];
    [apply get_first_Throw in H; by eexists|].
  apply bind_Throw in H as [H|(msg & _ & H)];
    apply get_member_Throw in H; by eexists.
Qed.



Lemma outcome_unreadable (answer : Completion UpstreamResponse)
    (r : UpstreamResponse) (v : JsVal) (t : Thrown) :
  answer = Normal r → ok r = true → up_json r = Normal v →
  first_choice_content v = Throw t → outcome_of answer = TransportFailure t.
Proof. intros -> Hok Hj Hread. cbn. rewrite Hok, Hj. cbn. by rewrite Hread. Qed.

End Reads.

Section Outcomes.
Context (env : Env).


(** C10. A body with an empty [choices] array makes the read of
    [choices[0].message.content] throw a [TypeError]; and whenever that read
    throws on the body of a 2xx answer, the exception is caught inside the
    [sendMessage] block: the response is still a 200 whose body is
    [data.sendMessage] with the empty string as [result] and, as [error],
    the message of the exception (the fallback text when what was thrown is
    not an [Error]). *)
Theorem unreadable_reply_is_enveloped :
  (∀ fields : gmap string JsVal,
     fields !! "choices" = Some (JArr []) →
     first_choice_content (JObj fields)
     = Throw (JsError "TypeError"
                "Cannot read properties of undefined (reading 'message')"))
  ∧ (∀ (P : Platform) (members : gmap string JsVal) (q s : string)
       (r : UpstreamResponse) (v : JsVal) (thrown : Thrown) (w : World),
       members !! "query" = Some (JStr q) → classify q = SendMessage →
       input_of members = JStr s → trim s ≠ "" →
       upstream P (openAICall (JStr s) env) = Normal r → ok r = true →
       up_json r = Normal v → first_choice_content v = Throw thrown →
       (∃ text, thrown = JsError "TypeError" text)
       ∧ ∃ w',
           fetch P (post members) env w
           = (Normal
                {| body := Some (JSON_stringify
                     {| data := Some (data_sendMessage
                          {| result := JStr "";
                             requestId := uuid P (uuid_draws w);
                             timestamp := isoTime P (clock_reads w);
                             error :=
                               Some match thrown with
                                    | JsError _ text => text
                                    | NonError _ => "处理请求时出错"
                                    end |});
                        errors := None |});
                   status := 200;
                   headers :=
                     ("Content-Type", "application/json") :: corsHeaders |},
              w')
           ∧ console w'
             = (console w
                ++ [ [ LogText "处理请求出错:"; LogThrown thrown ] ])%list).
Proof.
  split.
  - intros fields Hch. unfold first_choice_content. cbn. by rewrite Hch.
  - intros P members q s r v thrown w Hq Hc Hin Hs Hup Hok Hj Hread. split.
    + destruct (first_choice_content_Throw v thrown Hread) as [text ->].
      by exists text.
    + pose proof (fetch_valid_input P env members q s w Hq Hc Hin Hs) as E.
      cbv zeta in E.
      rewrite (outcome_unreadable _ r v thrown Hup Hok Hj Hread) in E.
      eexists. split; [exact E|reflexivity].
Qed.
End Outcomes.

Section Envelopes.
Context (P : Platform) (env : Env).

Lemma outcome_Success (answer : Completion UpstreamResponse) (content : JsVal) :
  outcome_of answer = Success content →
  ∃ r v, answer = Normal r ∧ ok r = true ∧ up_json r = Normal v
         ∧ first_choice_content v = Normal content.
Proof.
  destruct answer as [r|t]; cbn; [|discriminate].
  destruct (ok r) eqn:Hok; [|by destruct (up_text r)].
  destruct (up_json r) as [v|t] eqn:Hj; cbn; [|discriminate].
  destruct (first_choice_content v) as [c|t] eqn:Hread; [|discriminate].
  intros [= <-]. by exists r, v.
Qed.

(** A [query] member that is not a text is either falsy, and the request
    is invalid, or has no [toLowerCase] to call. *)
Lemma handle_post_non_text (members : gmap string JsVal) (v : JsVal)
    (w : World) :
  members !! "query" = Some v → (∀ q, v ≠ JStr q) →
  handle_post P (post members) env w
  = (if truthy v then Throw (not_a_function "body.query.toLowerCase")
     else Normal invalid_request,
     read_body w).
Proof.
  intros Hq Hv. unfold handle_post. js_run. rewrite Hq. cbn -[truthy].
  destruct (truthy v) eqn:Ht; cbn; [|reflexivity].
  destruct v; try reflexivity; try discriminate. by destruct (Hv s).
Qed.

(** Only a POST of an object whose [query] is a text classified as
    [SendMessage] is answered with an envelope. *)
Lemma envelope_origin (request : Request) (w : World) (e : ResultEnvelope) :
  envelope_of (fetch P request env w).1 = Some e →
  ∃ members q,
    request = post members ∧ members !! "query" = Some (JStr q)
    ∧ classify q = SendMessage.
Proof.
  destruct request as [m j].
  destruct (String.eqb_spec m "OPTIONS") as [->|Ho].
  { by rewrite fetch_OPTIONS. }
  destruct (String.eqb_spec m "POST") as [->|Hp].
  2: { by rewrite fetch_other. }
  destruct j as [parsed|t].
  2: { rewrite fetch_POST by done. unfold handle_post. by js_run. }
  destruct parsed as [| |b|f|s|items|members];
    try (rewrite fetch_POST by done; unfold handle_post; by js_run).
  destruct (members !! "query") as [v|] eqn:Hq.
  2: { rewrite fetch_POST by done. unfold handle_post. js_run.
       by rewrite Hq. }
  change {| method := "POST"; json := Normal (JObj members) |}
    with (post members).
  destruct v as [| |b|f|q|items|fields];
    try (rewrite fetch_POST by done;
         rewrite (handle_post_non_text members _ w Hq) by done;
         by destruct (truthy _)).
  destruct (decide (q = "")) as [->|Hne].
  { rewrite fetch_POST by done. unfold handle_post. js_run. by rewrite Hq. }
  rewrite (fetch_classified P env members q w Hq Hne).
  destruct (classify q) eqn:Hc; [done| |done].
  intros _. by exists members, q.
Qed.

(** C1, as the code has it.  Every envelope returned for [sendMessage] is
    of one of two kinds.  A failure envelope (validation, rejection by the
    provider, caught exception) has an [error] and the empty string as
    [result], so exactly one of the two halves of the invariant holds.  The
    success envelope has no [error] and carries the content of the first
    choice as the provider gave it, so exactly one half holds precisely
    when that content is a non-empty string.  The two halves never hold
    together. *)
Theorem envelope_invariant (request : Request) (w : World) (e : ResultEnvelope) :
  envelope_of (fetch P request env w).1 = Some e →
  (is_Some (error e) → result e = JStr "" ∧ exactly_one e = true)
  ∧ (error e = None →
     exactly_one e = nonempty_text (result e)
     ∧ ∃ call r v,
         upstream P call = Normal r ∧ ok r = true ∧ up_json r = Normal v
         ∧ first_choice_content v = Normal (result e))
  ∧ ¬ (nonempty_text (result e) = true ∧ is_Some (error e)).
Proof.
  intros He.
  destruct (envelope_origin request w e He) as (members & q & -> & Hq & Hc).
  assert (∀ text, e = envelope_at P w (JStr "") (Some text) →
          (is_Some (error e) → result e = JStr "" ∧ exactly_one e = true)
          ∧ (error e = None →
             exactly_one e = nonempty_text (result e)
             ∧ ∃ call r v,
                 upstream P call = Normal r ∧ ok r = true
                 ∧ up_json r = Normal v
                 ∧ first_choice_content v = Normal (result e))
          ∧ ¬ (nonempty_text (result e) = true ∧ is_Some (error e)))
    as Hfailure.
  { intros text ->. cbn. split; [|split].
    - by intros _.
    - by intros [=].
    - by intros [[=] _]. }
  destruct (truthy (input_of members)) eqn:Ht.
  2: { rewrite (fetch_invalid_input P env members q w Hq Hc) in He
         by by left.
       injection He as <-. by eapply Hfailure. }
  destruct (input_of members) as [| |b|f|s|items|fields] eqn:Hin;
    try (rewrite (fetch_bad_input P env members q w Hq Hc) in He
           by (rewrite Hin; done);
         discriminate He).
  destruct (decide (trim s = "")) as [Hs|Hs].
  { rewrite (fetch_invalid_input P env members q w Hq Hc) in He
      by (right; exists s; by rewrite Hin).
    injection He as <-. by eapply Hfailure. }
  rewrite (fetch_valid_input P env members q s w Hq Hc Hin Hs) in He.
  cbv zeta in He.
  destruct (outcome_of _) as [content|code raw|thrown] eqn:Hout.
  2-3: injection He as <-; by eapply Hfailure.
  injection He as <-. cbn.
  apply outcome_Success in Hout as (r & v & Hup & Hok & Hj & Hread).
  split; [|split].
  - by intros [? [=]].
  - intros _. split.
    + unfold exactly_one. cbn. by destruct (nonempty_text content).
    + by exists (openAICall (JStr s) env), r, v.
  - by intros [_ [? [=]]].
Qed.
End Envelopes.

Section Routing.
Context (P : Platform) (env : Env).

(** C2, as the code has it.  A descriptor whose lower-cased text contains
    both [query] and [status] is a [StatusQuery], whatever else it contains,
    and is answered with HTTP status 200 and the service status as [data];
    a descriptor that matches neither rule is [Unsupported], and when it is
    not empty it is answered with HTTP status 200 and an [errors] array
    whose single entry is the unsupported-query message. *)
Theorem first_match_wins :
  (∀ q : string,
     includes "query" (toLowerCase q) = true →
     includes "status" (toLowerCase q) = true →
     classify q = StatusQuery
     ∧ ∀ (members : gmap string JsVal) (w : World),
         members !! "query" = Some (JStr q) →
         fetch P (post members) env w
         = (Normal
              {| body := Some (JSON_stringify
                   {| data := Some (data_status "GraphQL API 正常运行中");
                      errors := None |});
                 status := 200;
                 headers :=
                   ("Content-Type", "application/json") :: corsHeaders |},
            read_body w))
  ∧ (∀ q : string,
       includes "query" (toLowerCase q)
       && includes "status" (toLowerCase q) = false →
       includes "mutation" (toLowerCase q)
       && includes "sendmessage" (toLowerCase q) = false →
       classify q = Unsupported
       ∧ ∀ (members : gmap string JsVal) (w : World),
           q ≠ "" → members !! "query" = Some (JStr q) →
           fetch P (post members) env w
           = (Normal
                {| body := Some (JSON_stringify
                     {| data := None;
                        errors :=
                          Some [ {| message := "不支持的 GraphQL 查询" |} ] |});
                   status := 200;
                   headers :=
                     ("Content-Type", "application/json") :: corsHeaders |},
              read_body w)).
Proof.
  split.
  - intros q H1 H2.
    assert (classify q = StatusQuery) as Hc.
    { unfold classify. cbv zeta. by rewrite H1, H2. }
    split; [exact Hc|]. intros members w Hq.
    rewrite (fetch_classified P env members q w Hq)
      by (apply classified_nonempty; by rewrite Hc).
    by rewrite Hc.
  - intros q H1 H2.
    assert (classify q = Unsupported) as Hc.
    { unfold classify. cbv zeta. by rewrite H1, H2. }
    split; [exact Hc|]. intros members w Hne Hq.
    rewrite (fetch_classified P env members q w Hq Hne).
    by rewrite Hc.
Qed.

(** C5, as the code has it.  A POST whose body is an object with a
    non-empty text as [query] is answered 200 whatever happens inside
    (status, success, validation failure, rejection, transport failure,
    unsupported query), provided that, when the operation is [sendMessage],
    [variables.input] is falsy or a string. *)
Theorem accepted_post_is_200 (members : gmap string JsVal) (q : string)
    (w : World) :
  members !! "query" = Some (JStr q) → q ≠ "" →
  (classify q = SendMessage →
   truthy (input_of members) = false ∨ ∃ s, input_of members = JStr s) →
  status_of (fetch P (post members) env w) = Some 200%N.
Proof.
  intros Hq Hne Hin.
  destruct (classify q) eqn:Hc.
  - rewrite (fetch_classified P env members q w Hq Hne). by rewrite Hc.
  - destruct (Hin eq_refl) as [Hf|[s Hs]].
    + by rewrite (fetch_invalid_input P env members q w Hq Hc) by by left.
    + destruct (decide (trim s = "")) as [Ht|Ht].
      * by rewrite (fetch_invalid_input P env members q w Hq Hc)
          by (right; by exists s).
      * rewrite (fetch_valid_input P env members q s w Hq Hc Hs Ht).
        cbv zeta. by destruct (outcome_of _).
  - rewrite (fetch_classified P env members q w Hq Hne). by rewrite Hc.
Qed.
End Routing.

(** ** The claims at concrete requests *)

Section Concrete.

Lemma mutation_query (input : JsVal) :
  mutation input !! "query"
  = Some (JStr "mutation { sendMessage(input: $input) }").
Proof. reflexivity. Qed.

Lemma mutation_input (input : JsVal) : input_of (mutation input) = input.
Proof. reflexivity. Qed.

(** The end-to-end scenarios of the interface, run on the model. *)
Example status_scenario :
  fetch (replying 200 "" []) (post (query_only "query { status }"))
    sample_env initial
  = (Normal (json_response
               (only_data (data_status "GraphQL API 正常运行中")) 200),
     read_body initial).
Proof. reflexivity. Qed.

Example hello_scenario :
  (fetch (replying 200 "" [choice "hi there"])
     (post (mutation (JStr "hello"))) sample_env initial).1
  = Normal (json_response
      (only_data (data_sendMessage
         {| result := JStr "hi there"; requestId := "uuid-0";
            timestamp := "2024-01-01T00:00:00.000Z"; error := None |})) 200).
Proof. reflexivity. Qed.

Example number_input_scenario :
  status_of (fetch (replying 200 "" [choice "hi there"])
               (post (mutation (JNum 5))) sample_env initial)
  = Some 500%N.
Proof. reflexivity. Qed.

Example trim_scenario : trim "  a b  " = "a b".
Proof. reflexivity. Qed.

Lemma two_spaces : whitespace_only "  ".
Proof.
  change (whitespace_only (" " ++ " " ++ "")).
  do 2 (apply ws_more; [do 5 apply list_elem_of_further; apply list_elem_of_here|]).
  apply ws_empty.
Qed.

(** C1 fails on a success whose content is the empty string: the envelope
    has neither a non-empty [result] nor an [error]. *)
Lemma empty_content_envelope :
  envelope_of
    (fetch (replying 200 "" [choice ""]) (post (mutation (JStr "hello")))
       sample_env initial).1
  = Some {| result := JStr ""; requestId := "uuid-0";
            timestamp := "2024-01-01T00:00:00.000Z"; error := None |}
  ∧ exactly_one {| result := JStr ""; requestId := "uuid-0";
                   timestamp := "2024-01-01T00:00:00.000Z"; error := None |}
    = false.
Proof. split; reflexivity. Qed.

Lemma envelope_invariant_witness :
  exactly_one
    {| result := JStr "hi there"; requestId := "uuid-0";
       timestamp := "2024-01-01T00:00:00.000Z"; error := None |}
  = true.
Proof.
  refine (proj1 (proj1 (proj2 (envelope_invariant
    (replying 200 "" [choice "hi there"]) sample_env
    (post (mutation (JStr "hello"))) initial _ _)) _)); reflexivity.
Defined.

(** C2 fails on the empty descriptor: it matches neither rule and is
    [Unsupported], yet the answer is the 400 of an invalid request. *)
Lemma empty_descriptor_is_not_200 :
  includes "query" (toLowerCase "") && includes "status" (toLowerCase "")
  = false
  ∧ includes "mutation" (toLowerCase "")
    && includes "sendmessage" (toLowerCase "") = false
  ∧ classify "" = Unsupported
  ∧ fetch (replying 200 "" []) (post (query_only "")) sample_env initial
    = (Normal
         {| body := Some (JSON_stringify
              {| data := None;
                 errors := Some [ {| message := "无效的 GraphQL 请求" |} ] |});
            status := 400;
            headers := ("Content-Type", "application/json") :: corsHeaders |},
       read_body initial).
Proof. repeat split; reflexivity. Qed.

Lemma first_match_wins_witness :
  fetch (replying 200 "" [])
    (post (query_only "mutation { sendMessage } QUERY { Status }"))
    sample_env initial
  = (Normal
       {| body := Some (JSON_stringify
            {| data := Some (data_status "GraphQL API 正常运行中");
               errors := None |});
          status := 200;
          headers := ("Content-Type", "application/json") :: corsHeaders |},
     read_body initial)
  ∧ fetch (replying 200 "" []) (post (query_only "subscription { ticks }"))
      sample_env initial
    = (Normal
         {| body := Some (JSON_stringify
              {| data := None;
                 errors := Some [ {| message := "不支持的 GraphQL 查询" |} ] |});
            status := 200;
            headers := ("Content-Type", "application/json") :: corsHeaders |},
       read_body initial).
Proof.
  pose proof (first_match_wins (replying 200 "" []) sample_env) as [H1 H2].
  split.
  - apply (proj2 (H1 "mutation { sendMessage } QUERY { Status }"
                    eq_refl eq_refl)).
    reflexivity.
  - apply (proj2 (H2 "subscription { ticks }" eq_refl eq_refl));
      [discriminate|reflexivity].
Defined.

Lemma blank_input_is_turned_away_witness :
  ∃ w',
    fetch (replying 200 "" [choice "unused"]) (post (mutation (JStr "  ")))
      sample_env initial
    = (Normal
         {| body := Some (JSON_stringify
              {| data := Some (data_sendMessage
                   {| result := JStr ""; requestId := "uuid-0";
                      timestamp := "2024-01-01T00:00:00.000Z";
                      error := Some "请提供输入内容" |});
                 errors := None |});
            status := 200;
            headers := ("Content-Type", "application/json") :: corsHeaders |},
       w')
    ∧ outbound w' = [].
Proof.
  apply (blank_input_is_turned_away (replying 200 "" [choice "unused"])
           sample_env (mutation (JStr "  ")) _ initial (mutation_query _)).
  - reflexivity.
  - right. right. exists "  ". split; [reflexivity | exact two_spaces].
Defined.



(** C5 fails on a [query] member that is present and empty: the answer is
    400. *)
Lemma empty_query_is_not_200 :
  query_only "" !! "query" = Some (JStr "")
  ∧ status_of (fetch (replying 200 "" [choice "hi"]) (post (query_only ""))
                 sample_env initial)
    = Some 400%N.
Proof. split; reflexivity. Qed.

Lemma accepted_post_is_200_witness :
  status_of (fetch (replying 503 "down" []) (post (mutation (JStr "hello")))
               sample_env initial)
  = Some 200%N.
Proof.
  apply (accepted_post_is_200 _ _ _ _ _ (mutation_query _)).
  - discriminate.
  - intros _. right. by exists "hello".
Defined.

Lemma upstream_request_is_fixed_witness :
  ∃ response w',
    fetch (replying 200 "" [choice "hi there"])
      (post (mutation (JStr " hello "))) sample_env initial
    = (Normal response, w')
    ∧ outbound w'
      = [ {| url := "https://api.openai.com/v1/chat/completions";
             call_method := "POST";
             call_headers :=
               [ ("Content-Type", "application/json");
                 ("Authorization", "Bearer sk-test") ];
             call_body := JSON_stringify
               {| model := "gpt-3.5-turbo";
                  messages := [ {| role := "user"; content := JStr " hello " |} ];
                  max_tokens := 500 |} |} ].
Proof.
  apply (upstream_request_is_fixed (replying 200 "" [choice "hi there"])
           sample_env (mutation (JStr " hello ")) _ " hello " initial
           (mutation_query _)); [reflexivity|reflexivity|discriminate].
Defined.

Lemma method_gate_witness :
  fetch (replying 200 "" []) {| method := "OPTIONS"; json := Normal JNull |}
    sample_env initial
  = (Normal {| body := None; status := 204; headers := corsHeaders |}, initial)
  ∧ status_of (fetch (replying 200 "" [])
                 {| method := "GET"; json := Normal JNull |} sample_env initial)
    = Some 405%N.
Proof.
  split.
  - apply method_gate. reflexivity.
  - rewrite (proj2 (method_gate (replying 200 "" []) sample_env
                      {| method := "GET"; json := Normal JNull |} initial));
      [reflexivity|discriminate|discriminate].
Defined.

(** C8 fails on the body [null]: it parses and has no [query] member, yet
    the read of [body.query] throws and the answer is 500, not 400. *)
Lemma null_body_is_500 :
  get_member "query" JNull
  = Throw (JsError "TypeError"
             "Cannot read properties of null (reading 'query')")
  ∧ fetch (replying 200 "" [])
      {| method := "POST"; json := Normal JNull |} sample_env initial
    = (Normal
         {| body := Some (JSON_stringify
              {| data := None;
                 errors := Some [ {| message := "处理请求时出错" |} ] |});
            status := 500;
            headers := ("Content-Type", "application/json") :: corsHeaders |},
       log_error
         [ LogText "处理请求出错:";
           LogThrown
             (JsError "TypeError"
                "Cannot read properties of null (reading 'query')") ]
         (read_body initial)).
Proof. split; reflexivity. Qed.

Lemma request_boundary_witness :
  fetch (replying 200 "" []) (post ∅) sample_env initial
  = (Normal
       {| body := Some (JSON_stringify
            {| data := None;
               errors := Some [ {| message := "无效的 GraphQL 请求" |} ] |});
          status := 400;
          headers := ("Content-Type", "application/json") :: corsHeaders |},
     read_body initial)
  ∧ fetch (replying 200 "" [])
      {| method := "POST";
         json := Throw (JsError "SyntaxError" "Unexpected token") |}
      sample_env initial
    = (Normal
         {| body := Some (JSON_stringify
              {| data := None;
                 errors := Some [ {| message := "处理请求时出错" |} ] |});
            status := 500;
            headers := ("Content-Type", "application/json") :: corsHeaders |},
       log_error
         [ LogText "处理请求出错:";
           LogThrown (JsError "SyntaxError" "Unexpected token") ]
         (read_body initial)).
Proof.
  split.
  - apply (proj1 (request_boundary (replying 200 "" []) sample_env
                    (post ∅) initial) (JObj ∅));
      try reflexivity; try discriminate.
    by intros members [= <-].
  - apply (proj1 (proj2 (request_boundary (replying 200 "" []) sample_env
             {| method := "POST";
                json := Throw (JsError "SyntaxError" "Unexpected token") |}
             initial)) (JsError "SyntaxError" "Unexpected token"));
      [reflexivity|by left].
Defined.

Lemma empty_query_is_400_witness :
  status_of (fetch (replying 200 "" []) (post (query_only "")) sample_env
               initial)
  = Some 400%N.
Proof.
  rewrite (proj1 (empty_query_is_400 (replying 200 "" []) sample_env
                    (query_only "") initial eq_refl)).
  reflexivity.
Defined.

Lemma unreadable_reply_is_enveloped_witness :
  ∃ w',
    fetch (replying 200 "" []) (post (mutation (JStr "hello"))) sample_env
      initial
    = (Normal
         {| body := Some (JSON_stringify
              {| data := Some (data_sendMessage
                   {| result := JStr ""; requestId := "uuid-0";
                      timestamp := "2024-01-01T00:00:00.000Z";
                      error :=
                        Some "Cannot read properties of undefined (reading 'message')"
                   |});
                 errors := None |});
            status := 200;
            headers := ("Content-Type", "application/json") :: corsHeaders |},
       w')
    ∧ console w'
      = [ [ LogText "处理请求出错:";
            LogThrown
              (JsError "TypeError"
                 "Cannot read properties of undefined (reading 'message')") ] ].
Proof.
  refine (proj2 (proj2 (unreadable_reply_is_enveloped sample_env)
    (replying 200 "" []) (mutation (JStr "hello")) _ "hello"
    {| up_status := 200; up_text := Normal "";
       up_json := Normal (chat_reply []) |}
    (chat_reply [])
    (JsError "TypeError"
       "Cannot read properties of undefined (reading 'message')")
    initial (mutation_query _) _ _ _ _ _ _ _));
    try reflexivity.
  discriminate.
Defined.

End Concrete.

(** * More of the worker *)

(** ** Every invocation follows one of the paths *)

Section Runs.
Context (P : Platform) (env : Env).

Lemma post_eta (request : Request) (members : gmap string JsVal) :
  method request = "POST" → json request = Normal (JObj members) →
  request = post members.
Proof. destruct request as [m j]. cbn. by intros -> ->. Qed.

Lemma truthy_member (k : string) (parsed v : JsVal) :
  get_member k parsed = Normal v → truthy v = true →
  ∃ members, parsed = JObj members ∧ members !! k = Some v.
Proof.
  destruct parsed as [| |b|f|s|items|members]; cbn; intros [= <-] Ht;
    try discriminate Ht.
  exists members. split; [reflexivity|].
  destruct (members !! k); [reflexivity | discriminate Ht].
Qed.

Lemma text_or_not (v : JsVal) : (∃ s, v = JStr s) ∨ (∀ s, v ≠ JStr s).
Proof. destruct v; try (by right); left; by eexists. Qed.

Lemma fetch_run (request : Request) (w : World) :
  ∃ response w',
    fetch P request env w = (Normal response, w')
    ∧ Run P env request w response w'.
Proof.
  destruct (String.eqb_spec (method request) "OPTIONS") as [Ho|Ho].
  { eexists _, _. split; [by apply fetch_OPTIONS | by constructor]. }
  destruct (String.eqb_spec (method request) "POST") as [Hp|Hp].
  2: { eexists _, _. split; [by apply fetch_other | by constructor]. }
  destruct (json request) as [parsed|error] eqn:Hj.
  2: { eexists _, _. split; [|by apply run_malformed].
       rewrite fetch_POST by done. unfold handle_post. js_run.
       by rewrite Hj. }
  destruct (get_member "query" parsed) as [v|error] eqn:Hg.
  2: { eexists _, _. split; [|by eapply run_nullish].
       rewrite fetch_POST by done. unfold handle_post. js_run.
       by rewrite Hj, Hg. }
  destruct (truthy v) eqn:Ht.
  2: { eexists _, _. split; [|by eapply run_no_query].
       rewrite fetch_POST by done. unfold handle_post. js_run.
       rewrite Hj, Hg. cbn -[truthy]. by rewrite Ht. }
  destruct (truthy_member _ _ _ Hg Ht) as (members & -> & Hq).
  pose proof (post_eta request members Hp Hj) as ->.
  destruct (text_or_not v) as [[q ->]|Hv].
  2: { eexists _, _. split; [|by eapply run_query_not_text].
       rewrite fetch_POST by done.
       rewrite (handle_post_non_text P env members v w Hq Hv).
       by rewrite Ht. }
  assert (q ≠ "") as Hne by (by intros ->).
  pose proof (fetch_classified P env members q w Hq Hne) as Hf.
  destruct (classify q) eqn:Hc.
  - eexists _, _. split; [exact Hf | by eapply run_status].
  - clear Hf. destruct (truthy (input_of members)) eqn:Hti.
    2: { eexists _, _. split; [|by eapply run_blank; eauto].
         by apply (fetch_invalid_input P env members q w Hq Hc); left. }
    destruct (text_or_not (input_of members)) as [[s Hin]|Hin].
    2: { eexists _, _. split; [|by eapply run_input_not_text].
         by apply (fetch_bad_input P env members q w Hq Hc). }
    destruct (decide (trim s = "")) as [Hs|Hs].
    { eexists _, _. split; [|by eapply run_blank; eauto].
      apply (fetch_invalid_input P env members q w Hq Hc). eauto. }
    rewrite (fetch_valid_input P env members q s w Hq Hc Hin Hs). cbv zeta.
    destruct (outcome_of _) as [content|code raw|error] eqn:Hout;
      eexists _, _; (split; [reflexivity|]).
    + by eapply run_success.
    + by eapply run_rejected.
    + by eapply run_failed.
  - eexists _, _. split; [exact Hf | by eapply run_unsupported].
Qed.
End Runs.

(** ** What holds of every invocation *)

Section Always.
Context (P : Platform) (env : Env).

(** X1. Whatever the request, the response carries the four CORS headers:
    alone when there is no body (the preflight answer), after the JSON
    content type otherwise. *)
Theorem every_response_has_cors (request : Request) (w : World) :
  ∃ response w',
    fetch P request env w = (Normal response, w')
    ∧ (∀ h, h ∈ corsHeaders → h ∈ headers response)
    ∧ (body response = None → headers response = corsHeaders)
    ∧ (body response ≠ None →
       headers response
       = ("Content-Type", "application/json") :: corsHeaders).
Proof.
  destruct (fetch_run P env request w) as (response & w' & E & HR).
  exists response, w'. split; [exact E|].
  destruct HR; cbn; repeat split; try done; intros h Hh;
    by apply list_elem_of_further.
Qed.

(** X2. The status of a response is one of 200, 204, 400, 405 and 500; it
    is 204 exactly for [OPTIONS], and then the body is [null]; it is 405
    exactly for a method that is neither [OPTIONS] nor [POST]. *)
Theorem status_codes (request : Request) (w : World) :
  ∃ response w',
    fetch P request env w = (Normal response, w')
    ∧ status response ∈ [200; 204; 400; 405; 500]%N
    ∧ (status response = 204%N ↔ method request = "OPTIONS")
    ∧ (body response = None ↔ method request = "OPTIONS")
    ∧ (status response = 405%N
       ↔ method request ≠ "OPTIONS" ∧ method request ≠ "POST").
Proof.
  destruct (fetch_run P env request w) as (response & w' & E & HR).
  exists response, w'. split; [exact E|].
  destruct HR; subst; cbn;
    try match goal with H : method _ = _ |- _ => rewrite H end;
    (split; [by repeat constructor|]);
    repeat split; intros; try tauto; try done; try congruence.
Qed.

Lemma envelope_draw (request : Request) (w w' : World)
    (r : Completion Response) (e : ResultEnvelope) :
  fetch P request env w = (r, w') → envelope_of r = Some e →
  requestId e = uuid P (uuid_draws w)
  ∧ timestamp e = isoTime P (clock_reads w)
  ∧ uuid_draws w' = S (uuid_draws w)
  ∧ clock_reads w' = S (clock_reads w).
Proof.
  destruct (fetch_run P env request w) as (response & w1 & E & HR).
  rewrite E. intros [= <- <-] He.
  destruct HR; cbn in He; try discriminate He; by injection He as <-.
Qed.

Lemma footprint_intro (w w' : World) (calls : list FetchCall)
    (entries : list (list LogArg)) (k b : nat) :
  outbound w' = (outbound w ++ calls)%list →
  console w' = (console w ++ entries)%list →
  uuid_draws w' = uuid_draws w + k → clock_reads w' = clock_reads w + k →
  body_reads w' = body_reads w + b →
  (length calls ≤ 1)%nat → (length entries ≤ 1)%nat →
  (k ≤ 1)%nat → (b ≤ 1)%nat →
  footprint w w'.
Proof.
  intros. unfold footprint. split; [by exists calls|].
  split; [by exists entries|]. split; [by exists k | by exists b].
Qed.

Tactic Notation "footprint_with"
    uconstr(calls) uconstr(entries) constr(k) constr(b) :=
  eapply (footprint_intro _ _ calls entries k b);
  cbn; rewrite ?app_nil_r; solve [reflexivity | lia].

Lemma run_footprint (request : Request) (w w' : World) (response : Response) :
  Run P env request w response w' → footprint w w'.
Proof.
  destruct 1.
  - footprint_with [] [] 0 0.
  - footprint_with [] [] 0 0.
  - footprint_with [] [_] 0 1.
  - footprint_with [] [_] 0 1.
  - footprint_with [] [] 0 1.
  - footprint_with [] [_] 0 1.
  - footprint_with [] [] 0 1.
  - footprint_with [] [] 0 1.
  - footprint_with [] [] 1 1.
  - footprint_with [] [_] 0 1.
  - footprint_with [_] [] 1 1.
  - footprint_with [_] [_] 1 1.
  - footprint_with [_] [_] 1 1.
Qed.

Lemma run_body_read (request : Request) (w w' : World) (response : Response) :
  Run P env request w response w' →
  body_reads w' = S (body_reads w) ↔ method request = "POST".
Proof.
  destruct 1; subst; cbn; split; intros; try done; try congruence; lia.
Qed.

Lemma run_draw (request : Request) (w w' : World) (response : Response) :
  Run P env request w response w' →
  uuid_draws w' = S (uuid_draws w) ↔ is_Some (envelope_of (Normal response)).
Proof.
  destruct 1; cbn; split;
    first [ by intros [? [=]] | by eexists | intros; lia ].
Qed.

(** X3. One invocation adds to the world at most one outbound call, one
    console entry, one identifier with one reading of the clock, and one
    read of the request body: it never retries the provider.  The body is
    read exactly when the method is [POST], and an identifier is drawn
    exactly when the response carries an envelope. *)
Theorem one_invocation_footprint (request : Request) (w : World) :
  ∃ response w',
    fetch P request env w = (Normal response, w')
    ∧ footprint w w'
    ∧ (body_reads w' = S (body_reads w) ↔ method request = "POST")
    ∧ (uuid_draws w' = S (uuid_draws w)
       ↔ is_Some (envelope_of (Normal response))).
Proof.
  destruct (fetch_run P env request w) as (response & w' & E & HR).
  exists response, w'. split; [exact E|]. split; [|split].
  - by eapply run_footprint.
  - by eapply run_body_read.
  - by eapply run_draw.
Qed.

(** X4. Two invocations run one after the other that both return an
    envelope give it successive identifiers and successive readings of the
    clock: nothing is carried over from the first to the second. *)
Theorem successive_envelopes (request1 request2 : Request) (w w1 w2 : World)
    (r1 r2 : Completion Response) (e1 e2 : ResultEnvelope) :
  fetch P request1 env w = (r1, w1) → fetch P request2 env w1 = (r2, w2) →
  envelope_of r1 = Some e1 → envelope_of r2 = Some e2 →
  requestId e1 = uuid P (uuid_draws w)
  ∧ requestId e2 = uuid P (S (uuid_draws w))
  ∧ timestamp e1 = isoTime P (clock_reads w)
  ∧ timestamp e2 = isoTime P (S (clock_reads w)).
Proof.
  intros E1 E2 H1 H2.
  destruct (envelope_draw request1 w w1 r1 e1 E1 H1) as (-> & -> & Hu & Hc).
  destruct (envelope_draw request2 w1 w2 r2 e2 E2 H2) as (-> & -> & _ & _).
  by rewrite Hu, Hc.
Qed.
End Always.

(** ** The remaining paths *)

Section Paths.
Context (P : Platform) (env : Env).

Lemma first_choice_read (fields first message_fields : gmap string JsVal)
    (rest : list JsVal) (text : JsVal) :
  fields !! "choices" = Some (JArr (JObj first :: rest)) →
  first !! "message" = Some (JObj message_fields) →
  message_fields !! "content" = Some text →
  first_choice_content (JObj fields) = Normal text.
Proof.
  intros Hc Hm Ht. unfold first_choice_content. cbn. rewrite Hc. cbn.
  rewrite Hm. cbn. by rewrite Ht.
Qed.

Lemma outcome_content (answer : Completion UpstreamResponse)
    (r : UpstreamResponse) (v content : JsVal) :
  answer = Normal r → ok r = true → up_json r = Normal v →
  first_choice_content v = Normal content →
  outcome_of answer = Success content.
Proof. intros -> Hok Hj Hread. cbn. rewrite Hok, Hj. cbn. by rewrite Hread. Qed.

Lemma outcome_thrown (answer : Completion UpstreamResponse) (thrown : Thrown) :
  answer = Throw thrown
  ∨ (∃ r, answer = Normal r ∧ ok r = false ∧ up_text r = Throw thrown)
  ∨ (∃ r, answer = Normal r ∧ ok r = true ∧ up_json r = Throw thrown) →
  outcome_of answer = TransportFailure thrown.
Proof.
  intros [->|[(r & -> & Hok & Ht)|(r & -> & Hok & Hj)]]; [reflexivity|..];
    cbn; rewrite Hok; [by rewrite Ht | by rewrite Hj].
Qed.

(** X5. On a 2xx answer whose body is an object with a [choices] array, the
    response is a 200 whose body is [data.sendMessage] with the [content]
    of the [message] of the first choice as [result], whatever kind of
    value it is, and [null] as [error]; the other choices and the other
    members of the body are not looked at, and nothing is written to the
    console. *)
Theorem success_returns_first_choice (members : gmap string JsVal)
    (q s : string) (r : UpstreamResponse)
    (fields first message_fields : gmap string JsVal) (rest : list JsVal)
    (text : JsVal) (w : World) :
  members !! "query" = Some (JStr q) → classify q = SendMessage →
  input_of members = JStr s → trim s ≠ "" →
  upstream P (openAICall (JStr s) env) = Normal r → ok r = true →
  up_json r = Normal (JObj fields) →
  fields !! "choices" = Some (JArr (JObj first :: rest)) →
  first !! "message" = Some (JObj message_fields) →
  message_fields !! "content" = Some text →
  ∃ w',
    fetch P (post members) env w
    = (Normal
         {| body := Some (JSON_stringify
              {| data := Some (data_sendMessage
                   {| result := text;
                      requestId := uuid P (uuid_draws w);
                      timestamp := isoTime P (clock_reads w);
                      error := None |});
                 errors := None |});
            status := 200;
            headers := ("Content-Type", "application/json") :: corsHeaders |},
       w')
    ∧ console w' = console w.
Proof.
  intros Hq Hc Hin Hs Hup Hok Hj Hch Hm Ht.
  pose proof (fetch_valid_input P env members q s w Hq Hc Hin Hs) as E.
  cbv zeta in E.
  rewrite (outcome_content _ r _ text Hup Hok Hj
             (first_choice_read _ _ _ _ _ Hch Hm Ht)) in E.
  eexists. split; [exact E|reflexivity].
Qed.

(** X6. When the outbound [fetch] rejects, or [text()] rejects on a
    non-2xx answer, or [json()] rejects on a 2xx answer, the response is
    still a 200 whose body is [data.sendMessage]: [error] is the message of
    what was thrown if it is an [Error] and the fallback text otherwise,
    [result] is the empty string, and what was thrown is written to the
    console. *)
Theorem failed_call_is_enveloped (members : gmap string JsVal) (q s : string)
    (thrown : Thrown) (w : World) :
  members !! "query" = Some (JStr q) → classify q = SendMessage →
  input_of members = JStr s → trim s ≠ "" →
  upstream P (openAICall (JStr s) env) = Throw thrown
  ∨ (∃ r, upstream P (openAICall (JStr s) env) = Normal r
          ∧ ok r = false ∧ up_text r = Throw thrown)
  ∨ (∃ r, upstream P (openAICall (JStr s) env) = Normal r
          ∧ ok r = true ∧ up_json r = Throw thrown) →
  ∃ w',
    fetch P (post members) env w
    = (Normal
         {| body := Some (JSON_stringify
              {| data := Some (data_sendMessage
                   {| result := JStr "";
                      requestId := uuid P (uuid_draws w);
                      timestamp := isoTime P (clock_reads w);
                      error :=
                        Some match thrown with
                             | JsError _ text => text
                             | NonError _ => "处理请求时出错"
                             end |});
                 errors := None |});
            status := 200;
            headers := ("Content-Type", "application/json") :: corsHeaders |},
       w')
    ∧ console w'
      = (console w ++ [ [ LogText "处理请求出错:"; LogThrown thrown ] ])%list.
Proof.
  intros Hq Hc Hin Hs Hup.
  pose proof (fetch_valid_input P env members q s w Hq Hc Hin Hs) as E.
  cbv zeta in E. rewrite (outcome_thrown _ thrown Hup) in E.
  eexists. split; [exact E|reflexivity].
Qed.

(** X7. When the operation is [sendMessage] and [variables.input] is truthy
    but not a string (a number, [true], an array, an object), the call of
    [input.trim] throws outside the inner [try]: the response is the 500 of
    the outer [catch], with an [errors] array whose single entry is the
    generic message; no envelope is made and the provider is not called. *)
Theorem input_not_text_is_500 (members : gmap string JsVal) (q : string)
    (w : World) :
  members !! "query" = Some (JStr q) → classify q = SendMessage →
  truthy (input_of members) = true → (∀ s, input_of members ≠ JStr s) →
  ∃ w',
    fetch P (post members) env w
    = (Normal
         {| body := Some (JSON_stringify
              {| data := None;
                 errors := Some [ {| message := "处理请求时出错" |} ] |});
            status := 500;
            headers := ("Content-Type", "application/json") :: corsHeaders |},
       w')
    ∧ outbound w' = outbound w
    ∧ uuid_draws w' = uuid_draws w
    ∧ console w'
      = (console w
         ++ [ [ LogText "处理请求出错:";
                LogThrown
                  (JsError "TypeError" "input.trim is not a function") ] ])%list.
Proof.
  intros Hq Hc Ht Hns. eexists.
  split; [by apply (fetch_bad_input P env members q w Hq Hc)|done].
Qed.

(** X8. A [query] member that is not a string is answered 400 when it is
    falsy ([null], [false], zero) and 500 when it is truthy, where the call
    of [toLowerCase] throws; in neither case is an operation run. *)
Theorem query_not_text (members : gmap string JsVal) (v : JsVal) (w : World) :
  members !! "query" = Some v → (∀ q, v ≠ JStr q) →
  fetch P (post members) env w =
    if truthy v
    then (Normal (json_response (only_errors "处理请求时出错") 500),
          log_error
            [ LogText "处理请求出错:";
              LogThrown
                (TypeError "body.query.toLowerCase is not a function") ]
            (read_body w))
    else (Normal (json_response (only_errors "无效的 GraphQL 请求") 400),
          read_body w).
Proof.
  intros Hq Hv. rewrite fetch_POST by reflexivity.
  rewrite (handle_post_non_text P env members v w Hq Hv).
  by destruct (truthy v).
Qed.

(** X9. A POST whose body parses to something that is not an object: a
    boolean, a number, a string or an array has no [query] and is answered
    400; [null] makes the read of [body.query] throw and is answered
    500. *)
Theorem body_not_object (request : Request) (parsed : JsVal) (w : World) :
  method request = "POST" → json request = Normal parsed →
  (∀ members, parsed ≠ JObj members) → parsed ≠ JUndefined →
  fetch P request env w =
    match parsed with
    | JNull =>
        (Normal (json_response (only_errors "处理请求时出错") 500),
         log_error
           [ LogText "处理请求出错:";
             LogThrown
               (TypeError
                  "Cannot read properties of null (reading 'query')") ]
           (read_body w))
    | _ =>
        (Normal (json_response (only_errors "无效的 GraphQL 请求") 400),
         read_body w)
    end.
Proof.
  intros Hm Hj Hobj Hu. rewrite fetch_POST by done.
  unfold handle_post. js_run. rewrite Hj.
  destruct parsed as [| |b|f|s|items|members]; try reflexivity.
  - by destruct Hu.
  - by destruct (Hobj members).
Qed.
End Paths.

(** ** Markers and white space, exactly *)

Section Exactly.






Lemma byte_is_eq (n : N) (c : ascii) : byte_is n c = true → c = ascii_of_N n.
Proof.
  unfold byte_is. intros <-%N.eqb_eq. symmetry. apply ascii_N_embedding.
Qed.

Lemma byte_in_range (lo hi : N) (c : ascii) :
  byte_in lo hi c = true →
  ∃ n, (lo ≤ n ≤ hi)%N ∧ c = ascii_of_N n.
Proof.
  unfold byte_in. intros [Hlo Hhi]%andb_true_iff.
  apply N.leb_le in Hlo, Hhi. exists (N_of_ascii c).
  split; [lia|]. symmetry. apply ascii_N_embedding.
Qed.

Ltac white := refine (bool_decide_unpack _ _); vm_compute; exact I.

Ltac bytes :=
  repeat match goal with
         | H : _ && _ = true |- _ => apply andb_true_iff in H as [? ?]
         | H : _ || _ = true |- _ => apply orb_true_iff in H as [?|?]
         | H : byte_is _ _ = true |- _ => apply byte_is_eq in H; subst
         | H : byte_in _ _ _ = true |- _ =>
             apply byte_in_range in H as (? & ? & ->)
         end.

Lemma ws1_white (c : ascii) : ws1 c = true → String c "" ∈ WhiteSpace.
Proof.
  unfold ws1. intros H. bytes; [|white].
  assert (x = 9 ∨ x = 10 ∨ x = 11 ∨ x = 12 ∨ x = 13)%N as Hx by lia.
  destruct Hx as [->|[->|[->|[->| ->]]]]; white.
Qed.

Lemma ws2_white (c1 c2 : ascii) :
  ws2 c1 c2 = true → String c1 (String c2 "") ∈ WhiteSpace.
Proof. unfold ws2. intros H. bytes. white. Qed.

Lemma ws3_white (c1 c2 c3 : ascii) :
  ws3 c1 c2 c3 = true → String c1 (String c2 (String c3 "")) ∈ WhiteSpace.
Proof.
  unfold ws3. intros H.
  bytes; first [ match goal with _ : (_ ≤ _ ≤ _)%N |- _ => idtac end | white ].
  - assert (x = 128 ∨ x = 129 ∨ x = 130 ∨ x = 131 ∨ x = 132 ∨ x = 133
            ∨ x = 134 ∨ x = 135 ∨ x = 136 ∨ x = 137 ∨ x = 138)%N
      as Hx by lia.
    destruct Hx as [->|[->|[->|[->|[->|[->|[->|[->|[->|[->| ->]]]]]]]]]];
      white.
  - assert (x = 168 ∨ x = 169)%N as Hx by lia.
    destruct Hx as [->| ->]; white.
Qed.

(** One step of [trimStart]: either nothing is stripped, or one white space
    character is. *)
Lemma trimStart_step (s : string) :
  trimStart s = s
  ∨ ∃ w rest, w ∈ WhiteSpace ∧ s = w ++ rest
              ∧ String.length rest < String.length s
              ∧ trimStart s = trimStart rest.
Proof.
  destruct s as [|c1 s1]; [by left|].
  destruct (ws1 c1) eqn:E1.
  { right. exists (String c1 ""), s1. repeat split.
    - by apply ws1_white.
    - cbn. lia.
    - cbn [trimStart]. by rewrite E1. }
  destruct s1 as [|c2 s2]; [left; cbn [trimStart]; by rewrite E1|].
  destruct (ws2 c1 c2) eqn:E2.
  { right. exists (String c1 (String c2 "")), s2. repeat split.
    - by apply ws2_white.
    - cbn. lia.
    - cbn [trimStart]. by rewrite E1, E2. }
  destruct s2 as [|c3 s3]; [left; cbn [trimStart]; by rewrite E1, E2|].
  destruct (ws3 c1 c2 c3) eqn:E3.
  - right. exists (String c1 (String c2 (String c3 ""))), s3. repeat split.
    + by apply ws3_white.
    + cbn. lia.
    + cbn [trimStart]. by rewrite E1, E2, E3.
  - left. cbn [trimStart]. by rewrite E1, E2, E3.
Qed.

Lemma by_length (Φ : string → Prop) :
  (∀ s, (∀ t, String.length t < String.length s → Φ t) → Φ s) → ∀ s, Φ s.
Proof.
  intros step s. remember (String.length s) as n eqn:Hn. revert s Hn.
  induction n as [n IH] using lt_wf_ind. intros s ->.
  apply step. intros t Ht. by apply (IH (String.length t)).
Qed.

Lemma trimStart_idempotent (s : string) :
  trimStart (trimStart s) = trimStart s.
Proof.
  induction s as [s IH] using by_length.
  destruct (trimStart_step s) as [E|(w & rest & _ & _ & Hlt & E)].
  - by rewrite !E.
  - rewrite E. by apply IH.
Qed.

Lemma trimStart_empty (s : string) : trimStart s = "" → whitespace_only s.
Proof.
  induction s as [s IH] using by_length.
  destruct (trimStart_step s) as [E|(w & rest & Hw & -> & Hlt & E)].
  - rewrite E. intros ->. constructor.
  - rewrite E. intros H. apply ws_more; [exact Hw | by apply IH].
Qed.

Lemma trimEnd_empty (s : string) : trimEnd s = "" → trimStart s = "".
Proof.
  destruct s as [|c rest]; [done|]. cbn [trimEnd].
  destruct (String.eqb_spec (trimStart (String c rest)) ""); done.
Qed.

(** [trim] gives the empty string exactly on a run of white space. *)
Lemma trim_empty_iff (s : string) : trim s = "" ↔ whitespace_only s.
Proof.
  split; [|apply whitespace_only_trim].
  unfold trim. intros H%trimEnd_empty. rewrite trimStart_idempotent in H.
  by apply trimStart_empty.
Qed.
End Exactly.

Section Validation.
Context (P : Platform) (env : Env).

End Validation.

(** ** What the response does not depend on *)

Section Independence.
Context (P : Platform).

Lemma sendMessage_by_input (env : Env) (variables1 variables2 : JsVal) :
  get_member "input" variables1 = get_member "input" variables2 →
  sendMessage P variables1 env = sendMessage P variables2 env.
Proof. intros H. unfold sendMessage. by rewrite H. Qed.

(** X12. The response to a POST depends on the parsed body only through
    its [query] member and [variables.input]: [operationName], the other
    variables and any other member are ignored. *)
Theorem other_members_are_ignored (env : Env)
    (members1 members2 : gmap string JsVal) (w : World) :
  members1 !! "query" = members2 !! "query" →
  input_of members1 = input_of members2 →
  fetch P (post members1) env w = fetch P (post members2) env w.
Proof.
  intros Hq Hin.
  destruct (members1 !! "query") as [v|] eqn:Hq1; symmetry in Hq.
  2: { rewrite !fetch_POST by done. unfold handle_post. js_run.
       by rewrite Hq1, Hq. }
  destruct (text_or_not v) as [[q ->]|Hv].
  2: { rewrite !fetch_POST by done.
       by rewrite (handle_post_non_text P env members1 v w Hq1 Hv),
                  (handle_post_non_text P env members2 v w Hq Hv). }
  destruct (decide (q = "")) as [->|Hne].
  { rewrite !fetch_POST by done. unfold handle_post. js_run.
    by rewrite Hq1, Hq. }
  rewrite (fetch_classified P env members1 q w Hq1 Hne),
          (fetch_classified P env members2 q w Hq Hne).
  destruct (classify q); try reflexivity.
  by rewrite (sendMessage_by_input env (variables_of members1)
                (variables_of members2))
    by (by rewrite !get_input, Hin).
Qed.

Lemma sendMessage_by_answer (env1 env2 : Env) (variables : JsVal) (w : World) :
  (∀ input,
     upstream P (openAICall input env1) = upstream P (openAICall input env2)) →
  ∃ c w1 w2,
    sendMessage P variables env1 w = (c, w1)
    ∧ sendMessage P variables env2 w = (c, w2)
    ∧ console w1 = console w2.
Proof.
  intros Hsame.
  destruct (get_member "input" variables) as [input|error] eqn:Hg.
  2: { eexists _, _, _. unfold sendMessage. js_run. rewrite Hg. done. }
  destruct (truthy input) eqn:Ht.
  2: { eexists _, _, _.
       rewrite !(sendMessage_invalid P _ variables input w Hg) by by left.
       done. }
  destruct (text_or_not input) as [[s ->]|Hns].
  2: { eexists _, _, _.
       by rewrite !(sendMessage_throws P _ variables input w Hg Ht Hns). }
  destruct (decide (trim s = "")) as [Hs|Hs].
  { eexists _, _, _.
    rewrite !(sendMessage_invalid P _ variables (JStr s) w Hg)
      by (right; by exists s).
    done. }
  rewrite (sendMessage_valid P env1 variables s w Hg Hs),
          (sendMessage_valid P env2 variables s w Hg Hs).
  cbv zeta. rewrite (Hsame (JStr s)).
  destruct (outcome_of _); by eexists _, _, _.
Qed.

(** X13. The secret reaches the provider and nothing else: if the provider
    answers alike for two keys, the responses returned and the console
    outputs are the same for the two keys. *)
Theorem secret_only_goes_upstream (env1 env2 : Env) (request : Request)
    (w : World) :
  (∀ input,
     upstream P (openAICall input env1) = upstream P (openAICall input env2)) →
  (fetch P request env1 w).1 = (fetch P request env2 w).1
  ∧ console (fetch P request env1 w).2 = console (fetch P request env2 w).2.
Proof.
  intros Hsame.
  destruct (String.eqb_spec (method request) "OPTIONS") as [Ho|Ho].
  { by rewrite !fetch_OPTIONS. }
  destruct (String.eqb_spec (method request) "POST") as [Hp|Hp].
  2: { by rewrite !fetch_other. }
  rewrite !fetch_POST by done.
  destruct (json request) as [parsed|error] eqn:Hj.
  2: { unfold handle_post. js_run. by rewrite Hj. }
  destruct (get_member "query" parsed) as [v|error] eqn:Hg.
  2: { unfold handle_post. js_run. by rewrite Hj, Hg. }
  destruct (truthy v) eqn:Ht.
  2: { unfold handle_post. js_run. rewrite Hj, Hg. cbn -[truthy].
       by rewrite Ht. }
  destruct (truthy_member _ _ _ Hg Ht) as (members & -> & Hq).
  pose proof (post_eta request members Hp Hj) as ->.
  destruct (text_or_not v) as [[q ->]|Hv].
  2: { by rewrite !(handle_post_non_text P _ members v w Hq Hv). }
  assert (q ≠ "") as Hne by (by intros ->).
  rewrite !(handle_post_classified P _ members q w Hq Hne).
  destruct (classify q); try done.
  destruct (sendMessage_by_answer env1 env2 (variables_of members)
              (read_body w) Hsame) as (c & w1 & w2 & -> & -> & Hc).
  destruct c; cbn; [done|]. by rewrite Hc.
Qed.
End Independence.

(** ** The resolver of the Apollo variant *)

Section ApolloResolver.
Context (P : Platform) (env : Env).

Lemma apollo_invalid (input : JsVal) (w : World) :
  truthy input = false ∨ (∃ s, input = JStr s ∧ trim s = "") →
  Apollo.sendMessage P input env w
  = (Normal (envelope_at P w (JStr "") (Some input_required)), drawn w).
Proof.
  intros Hbad. unfold Apollo.sendMessage, Apollo.envelope. js_run.
  destruct (truthy input) eqn:Ht; cbn; [|reflexivity].
  destruct Hbad as [|(s & -> & Hs)]; [done|]. cbn. by rewrite Hs.
Qed.

Lemma apollo_not_text (input : JsVal) (w : World) :
  truthy input = true → (∀ s, input ≠ JStr s) →
  Apollo.sendMessage P input env w
  = (Normal (envelope_at P w (JStr "")
               (Some "input.trim is not a function")),
     drawn (caught (not_a_function "input.trim") w)).
Proof.
  intros Ht Hns. unfold Apollo.sendMessage, Apollo.envelope. js_run.
  rewrite Ht. cbn.
  destruct input; try reflexivity; try discriminate. by destruct (Hns s).
Qed.

Lemma apollo_valid (s : string) (w : World) :
  trim s ≠ "" →
  let call := Apollo.openAICall (JStr s) env in
  let w1 := call_out call w in
  Apollo.sendMessage P (JStr s) env w =
    match outcome_of (upstream P call) with
    | Success content => (Normal (envelope_at P w content None), drawn w1)
    | Rejected statusCode rawBody =>
        (Normal (envelope_at P w (JStr "")
                   (Some (upstream_error_prefix ++ pretty statusCode))),
         drawn (log_error
                  [ LogText (upstream_error_prefix ++ pretty statusCode
                             ++ " " ++ rawBody) ] w1))
    | TransportFailure error =>
        (Normal (envelope_at P w (JStr "") (Some (errorMessage error))),
         drawn (caught error w1))
    end.
Proof.
  intros Hs call w1. unfold Apollo.sendMessage, Apollo.envelope.
  repeat (autounfold with js; cbn -[truthy]).
  rewrite (truthy_text s (trim_nonempty s Hs)). cbn.
  destruct (String.eqb_spec (trim s) "") as [|_]; [done|].
  fold call. unfold outcome_of.
  destruct (upstream P call) as [r|error]; [|reflexivity].
  destruct (ok r); cbn.
  2: { by destruct (up_text r) as [errorText|error]. }
  destruct (up_json r) as [v|error]; [|reflexivity]. cbn.
  by destruct (first_choice_content v) as [content|error].
Qed.

(** X14. The resolver of the Apollo variant never throws: for every input,
    whatever the provider does, it returns an envelope, drawn from the next
    identifier and the next reading of the clock, and an envelope with an
    [error] has the empty string as [result]. *)
Theorem apollo_resolver_never_throws (input : JsVal) (w : World) :
  ∃ e w',
    Apollo.sendMessage P input env w = (Normal e, w')
    ∧ requestId e = uuid P (uuid_draws w)
    ∧ timestamp e = isoTime P (clock_reads w)
    ∧ (is_Some (error e) → result e = JStr "").
Proof.
  destruct (truthy input) eqn:Ht.
  2: { eexists _, _. split; [by apply apollo_invalid; left|]. done. }
  destruct (text_or_not input) as [[s ->]|Hns].
  2: { eexists _, _. split; [by apply apollo_not_text|]. done. }
  destruct (decide (trim s = "")) as [Hs|Hs].
  { eexists _, _. split; [apply apollo_invalid; right; by exists s|]. done. }
  rewrite (apollo_valid s w Hs). cbv zeta.
  destruct (outcome_of _); eexists _, _; (split; [reflexivity|]); cbn;
    repeat split; try done; by intros [? [=]].
Qed.

(** X15. In the Apollo variant the validation is inside the [try]: an input
    that is truthy but not a string is answered with an envelope whose
    [error] is the message of the [TypeError], and the provider is not
    called, where the handler of [index.ts] answers 500. *)
Theorem apollo_input_not_text (input : JsVal) (w : World) :
  truthy input = true → (∀ s, input ≠ JStr s) →
  ∃ w',
    Apollo.sendMessage P input env w
    = (Normal {| result := JStr "";
                 requestId := uuid P (uuid_draws w);
                 timestamp := isoTime P (clock_reads w);
                 error := Some "input.trim is not a function" |},
       w')
    ∧ outbound w' = outbound w.
Proof.
  intros Ht Hns. eexists. split; [by apply apollo_not_text|done].
Qed.

(** X16. In the Apollo variant a string that is not white space only makes
    exactly one call, with the model [gpt-4], one [user] message carrying
    the input untrimmed and [max_tokens] 500; a string of white space makes
    none. *)
Theorem apollo_request (s : string) (w : World) :
  ∃ e w',
    Apollo.sendMessage P (JStr s) env w = (Normal e, w')
    ∧ (whitespace_only s → outbound w' = outbound w)
    ∧ (¬ whitespace_only s →
       outbound w'
       = (outbound w ++
          [ {| url := "https://api.openai.com/v1/chat/completions";
               call_method := "POST";
               call_headers :=
                 [ ("Content-Type", "application/json");
                   ("Authorization",
                    ("Bearer " ++ OPENAI_API_KEY env)%string) ];
               call_body := JSON_stringify
                 {| model := "gpt-4";
                    messages := [ {| role := "user"; content := JStr s |} ];
                    max_tokens := 500 |} |} ])%list).
Proof.
  destruct (decide (trim s = "")) as [Hs|Hs].
  - eexists _, _. split; [apply apollo_invalid; right; by exists s|].
    apply trim_empty_iff in Hs. by split.
  - rewrite (apollo_valid s w Hs). cbv zeta. rewrite trim_empty_iff in Hs.
    destruct (outcome_of _); eexists _, _; (split; [reflexivity|]);
      by split.
Qed.
End ApolloResolver.

(** ** The further properties at concrete requests *)

Section MoreConcrete.

Lemma successive_envelopes_witness :
  requestId
    {| result := JStr "hi"; requestId := "uuid-0";
       timestamp := "2024-01-01T00:00:00.000Z"; error := None |}
  = "uuid-0"
  ∧ requestId
      {| result := JStr ""; requestId := "uuid-1";
         timestamp := "2024-01-01T00:00:01.000Z";
         error := Some "请提供输入内容" |}
    = "uuid-1".
Proof.
  pose proof (successive_envelopes (replying 200 "" [choice "hi"]) sample_env
    (post (mutation (JStr "hello"))) (post (mutation (JStr " ")))
    initial _ _ _ _ _ _ eq_refl eq_refl eq_refl eq_refl) as (H1 & H2 & _).
  split; [exact H1 | exact H2].
Defined.

Lemma success_returns_first_choice_witness :
  ∃ w',
    fetch (replying 200 "" [choice "first"; choice "second"])
      (post (mutation (JStr "hello"))) sample_env initial
    = (Normal
         {| body := Some (JSON_stringify
              {| data := Some (data_sendMessage
                   {| result := JStr "first"; requestId := "uuid-0";
                      timestamp := "2024-01-01T00:00:00.000Z";
                      error := None |});
                 errors := None |});
            status := 200;
            headers := ("Content-Type", "application/json") :: corsHeaders |},
       w')
    ∧ console w' = [].
Proof.
  apply (success_returns_first_choice
           (replying 200 "" [choice "first"; choice "second"]) sample_env
           (mutation (JStr "hello")) _ "hello"
           {| up_status := 200; up_text := Normal "";
              up_json := Normal (chat_reply [choice "first"; choice "second"]) |}
           {[ "choices" := JArr [choice "first"; choice "second"] ]}
           {[ "message" := JObj {[ "content" := JStr "first" ]} ]}
           {[ "content" := JStr "first" ]}
           [choice "second"] (JStr "first") initial (mutation_query _));
    try reflexivity.
  discriminate.
Defined.

Lemma failed_call_is_enveloped_witness :
  (∃ w',
     fetch (answering (Throw (NonError (JStr "aborted"))))
       (post (mutation (JStr "hello"))) sample_env initial
     = (Normal
          {| body := Some (JSON_stringify
               {| data := Some (data_sendMessage
                    {| result := JStr ""; requestId := "uuid-0";
                       timestamp := "2024-01-01T00:00:00.000Z";
                       error := Some "处理请求时出错" |});
                  errors := None |});
             status := 200;
             headers := ("Content-Type", "application/json") :: corsHeaders |},
        w')
     ∧ console w'
       = [ [ LogText "处理请求出错:";
             LogThrown (NonError (JStr "aborted")) ] ])
  ∧ (∃ w',
       fetch
         (answering
            (Normal
               {| up_status := 502;
                  up_text :=
                    Throw (JsError "TypeError" "Body stream interrupted");
                  up_json :=
                    Throw (JsError "TypeError" "Body stream interrupted") |}))
         (post (mutation (JStr "hello"))) sample_env initial
       = (Normal
            {| body := Some (JSON_stringify
                 {| data := Some (data_sendMessage
                      {| result := JStr ""; requestId := "uuid-0";
                         timestamp := "2024-01-01T00:00:00.000Z";
                         error := Some "Body stream interrupted" |});
                    errors := None |});
               status := 200;
               headers := ("Content-Type", "application/json") :: corsHeaders |},
          w')
       ∧ console w'
         = [ [ LogText "处理请求出错:";
               LogThrown
                 (JsError "TypeError" "Body stream interrupted") ] ]).
Proof.
  split.
  - apply (failed_call_is_enveloped
             (answering (Throw (NonError (JStr "aborted")))) sample_env
             (mutation (JStr "hello")) _ "hello" (NonError (JStr "aborted"))
             initial (mutation_query _));
      [reflexivity|reflexivity|discriminate|by left].
  - apply (failed_call_is_enveloped
             (answering
                (Normal
                   {| up_status := 502;
                      up_text :=
                        Throw (JsError "TypeError" "Body stream interrupted");
                      up_json :=
                        Throw (JsError "TypeError" "Body stream interrupted")
                   |}))
             sample_env (mutation (JStr "hello")) _ "hello"
             (JsError "TypeError" "Body stream interrupted")
             initial (mutation_query _));
      [reflexivity|reflexivity|discriminate|].
    right. left. by eexists.
Defined.

Lemma input_not_text_is_500_witness :
  ∃ w',
    fetch (replying 200 "" [choice "hi"]) (post (mutation (JBool true)))
      sample_env initial
    = (Normal
         {| body := Some (JSON_stringify
              {| data := None;
                 errors := Some [ {| message := "处理请求时出错" |} ] |});
            status := 500;
            headers := ("Content-Type", "application/json") :: corsHeaders |},
       w')
    ∧ outbound w' = []
    ∧ uuid_draws w' = 0
    ∧ console w'
      = [ [ LogText "处理请求出错:";
            LogThrown (JsError "TypeError" "input.trim is not a function") ] ].
Proof.
  apply (input_not_text_is_500 (replying 200 "" [choice "hi"]) sample_env
           (mutation (JBool true)) _ initial (mutation_query _));
    [reflexivity|reflexivity|discriminate].
Defined.

Lemma only_query (v : JsVal) :
  ({[ "query" := v ]} : gmap string JsVal) !! "query" = Some v.
Proof. apply lookup_singleton_eq. Qed.

Lemma query_not_text_witness :
  status_of (fetch (replying 200 "" []) (post {[ "query" := JBool true ]})
               sample_env initial)
  = Some 500%N
  ∧ status_of (fetch (replying 200 "" []) (post {[ "query" := JNull ]})
                 sample_env initial)
    = Some 400%N.
Proof.
  split.
  - rewrite (query_not_text (replying 200 "" []) sample_env
               {[ "query" := JBool true ]} (JBool true) initial
               (only_query _) ltac:(discriminate)).
    reflexivity.
  - rewrite (query_not_text (replying 200 "" []) sample_env
               {[ "query" := JNull ]} JNull initial
               (only_query _) ltac:(discriminate)).
    reflexivity.
Defined.

Lemma body_not_object_witness :
  status_of (fetch (replying 200 "" [])
               {| method := "POST"; json := Normal (JArr []) |}
               sample_env initial)
  = Some 400%N
  ∧ status_of (fetch (replying 200 "" [])
                 {| method := "POST"; json := Normal JNull |}
                 sample_env initial)
    = Some 500%N.
Proof.
  split.
  - rewrite (body_not_object (replying 200 "" []) sample_env
               {| method := "POST"; json := Normal (JArr []) |} (JArr [])
               initial eq_refl eq_refl); [reflexivity|discriminate..].
  - rewrite (body_not_object (replying 200 "" []) sample_env
               {| method := "POST"; json := Normal JNull |} JNull
               initial eq_refl eq_refl); [reflexivity|discriminate..].
Defined.


Lemma other_members_are_ignored_witness :
  fetch (replying 200 "" [choice "hi"])
    (post (<[ "operationName" := JStr "Send" ]> (mutation (JStr "hello"))))
    sample_env initial
  = fetch (replying 200 "" [choice "hi"]) (post (mutation (JStr "hello")))
      sample_env initial.
Proof.
  apply (other_members_are_ignored (replying 200 "" [choice "hi"]));
    reflexivity.
Defined.

Lemma secret_only_goes_upstream_witness :
  (fetch (replying 401 "bad key" []) (post (mutation (JStr "hello")))
     {| OPENAI_API_KEY := "sk-one" |} initial).1
  = (fetch (replying 401 "bad key" []) (post (mutation (JStr "hello")))
       {| OPENAI_API_KEY := "sk-two" |} initial).1.
Proof.
  apply (secret_only_goes_upstream (replying 401 "bad key" [])).
  intros input. reflexivity.
Defined.

Lemma apollo_input_not_text_witness :
  ∃ w',
    Apollo.sendMessage (replying 200 "" [choice "hi"]) (JArr []) sample_env
      initial
    = (Normal {| result := JStr ""; requestId := "uuid-0";
                 timestamp := "2024-01-01T00:00:00.000Z";
                 error := Some "input.trim is not a function" |},
       w')
    ∧ outbound w' = [].
Proof.
  apply (apollo_input_not_text (replying 200 "" [choice "hi"]) sample_env
           (JArr []) initial); [reflexivity|discriminate].
Defined.

End MoreConcrete.
